(** * snakemq_pubsub: the broker registry, command dispatch and the
      subscriber's bookkeeping, embedded from [snakemq_pubsub/__init__.py].

    Text is represented by its UTF-8 byte string (a Rocq [string] is a list
    of 8-bit characters).  Python's [startswith], [split(" ")] and
    [" ".join] with ASCII arguments act on a decoded [str] exactly as the
    byte-level functions below act on its UTF-8 encoding, because an ASCII
    byte never occurs inside a multi-byte UTF-8 sequence.  With this
    representation [bytes.decode("utf-8")] is the identity on well-formed
    input and raises [UnicodeDecodeError] otherwise.  A byte string that is
    not well-formed UTF-8, where the source has a [str], stands for a
    [str] that has no UTF-8 encoding (one that holds a lone surrogate):
    [str.encode("utf-8")] is the identity on well-formed text and raises
    [UnicodeEncodeError] otherwise. *)

From Stdlib Require Import Ascii NArith ZArith.
From stdpp Require Import gmap strings list fin_maps.

Local Open Scope Z_scope.
Set Warnings "-clear-no-such-hyp".

(** ** Python string primitives used by the source *)

Module PyStr.

Definition space : ascii := " "%char.

(** [s.startswith(prefix)] *)
Fixpoint startswith (s prefix : string) {struct prefix} : bool :=
  match prefix with
  | EmptyString => true
  | String p prefix' =>
      match s with
      | EmptyString => false
      | String c s' => if Ascii.eqb c p then startswith s' prefix' else false
      end
  end.

(** [s.split(sep)] for a one-character separator: every occurrence of the
    separator cuts, so adjacent separators give empty fields and the
    result is never the empty list. *)
Fixpoint split (sep : ascii) (s : string) : list string :=
  match s with
  | EmptyString => [EmptyString]
  | String c s' =>
      if Ascii.eqb c sep then EmptyString :: split sep s'
      else match split sep s' with
           | w :: ws => String c w :: ws
           | [] => [String c EmptyString]
           end
  end.

(** [sep.join(l)] *)
Fixpoint join (sep : string) (l : list string) : string :=
  match l with
  | [] => EmptyString
  | [w] => w
  | w :: ws => w +:+ sep +:+ join sep ws
  end.

(** [c in s] for a single character *)
Fixpoint contains (c : ascii) (s : string) : bool :=
  match s with
  | EmptyString => false
  | String d s' => if Ascii.eqb d c then true else contains c s'
  end.

(** [enumerate(l)] *)
Fixpoint enumerate_from {A} (i : nat) (l : list A) : list (nat * A) :=
  match l with
  | [] => []
  | x :: l' => (i, x) :: enumerate_from (S i) l'
  end.
Definition enumerate {A} (l : list A) : list (nat * A) := enumerate_from 0 l.

(** Well-formed UTF-8 (Unicode 3.9, table 3-7), what the strict "utf-8"
    codec accepts. *)
Definition byte_in (lo hi : N) (c : ascii) : bool :=
  ((lo <=? N_of_ascii c) && (N_of_ascii c <=? hi))%N.

Definition cont (c : ascii) : bool := byte_in 128 191 c.

Definition second3 (b0 b1 : ascii) : bool :=
  if byte_in 224 224 b0 then byte_in 160 191 b1
  else if byte_in 237 237 b0 then byte_in 128 159 b1
  else cont b1.

Definition second4 (b0 b1 : ascii) : bool :=
  if byte_in 240 240 b0 then byte_in 144 191 b1
  else if byte_in 244 244 b0 then byte_in 128 143 b1
  else cont b1.

Fixpoint utf8_valid (s : string) : bool :=
  match s with
  | EmptyString => true
  | String b0 r0 =>
      if byte_in 0 127 b0 then utf8_valid r0
      else if byte_in 194 223 b0 then
        match r0 with
        | String b1 r1 => cont b1 && utf8_valid r1
        | _ => false
        end
      else if byte_in 224 239 b0 then
        match r0 with
        | String b1 (String b2 r2) =>
            second3 b0 b1 && cont b2 && utf8_valid r2
        | _ => false
        end
      else if byte_in 240 244 b0 then
        match r0 with
        | String b1 (String b2 (String b3 r3)) =>
            second4 b0 b1 && cont b2 && cont b3 && utf8_valid r3
        | _ => false
        end
      else false
  end.

End PyStr.

(** ** Effects: state, a trace of outbound effects, and exceptions

    A Python method is a state transformer that also emits effects (messages
    handed to the transport, lines printed) and either returns or raises.
    What was mutated and emitted before an exception stays. *)

Inductive exn :=
| KeyError (key : string)
| UnicodeDecodeError
| UnicodeEncodeError
| RuntimeError (what : string).

Inductive effect :=
| Send (dest : string) (data : string) (ttl : Z)
| Print (text : string).

Inductive res (A : Type) :=
| Ok (a : A)
| Raise (e : exn).
Arguments Ok {A} a.
Arguments Raise {A} e.

Record outcome (S A : Type) := Outcome {
  final : S;
  trace : list effect;
  result : res A
}.
Arguments Outcome {S A} final trace result.
Arguments final {S A} o.
Arguments trace {S A} o.
Arguments result {S A} o.

Definition M (S A : Type) : Type := S → outcome S A.

Section Monad.
Context {S : Type}.

Definition ret {A} (a : A) : M S A := λ s, Outcome s [] (Ok a).

Definition bind {A B} (m : M S A) (k : A → M S B) : M S B := λ s,
  let o := m s in
  match result o with
  | Ok a =>
      let o' := k a (final o) in
      Outcome (final o') (trace o ++ trace o') (result o')
  | Raise e => Outcome (final o) (trace o) (Raise e)
  end.

Definition raise {A} (e : exn) : M S A := λ s, Outcome s [] (Raise e).
Definition get : M S S := λ s, Outcome s [] (Ok s).
Definition put (s : S) : M S unit := λ _, Outcome s [] (Ok tt).
Definition emit (e : effect) : M S unit := λ s, Outcome s [e] (Ok tt).

(** [for x in l: body(x)] over a list fixed when the loop starts *)
Fixpoint for_each {A} (l : list A) (body : A → M S unit) : M S unit :=
  match l with
  | [] => ret tt
  | x :: l' => bind (body x) (λ _, for_each l' body)
  end.

(** [for x in the_set: body(x)] over a set that lives in the state.  The
    iterator remembers the size the set had when the loop started and
    every step first compares it with the current size, raising
    [RuntimeError] when they differ. *)
Definition check_size (size_now : S → nat) (used : nat) : M S unit := λ s,
  if bool_decide (size_now s = used) then Outcome s [] (Ok tt)
  else Outcome s [] (Raise (RuntimeError "Set changed size during iteration")).

Fixpoint for_set_items {A} (size_now : S → nat) (used : nat) (l : list A)
    (body : A → M S unit) : M S unit :=
  match l with
  | [] => check_size size_now used
  | x :: l' =>
      bind (check_size size_now used) (λ _,
      bind (body x) (λ _, for_set_items size_now used l' body))
  end.

Definition for_set `{Countable A} (the_set : S → gset A)
    (body : A → M S unit) : M S unit := λ s,
  for_set_items (λ s', size (the_set s')) (size (the_set s))
    (elements (the_set s)) body s.
End Monad.

Notation "'let*' x := m 'in' k" := (bind m (λ x, k))
  (at level 10, x name, m at level 100, k at level 200).
Notation "m ;; k" := (bind m (λ _, k))
  (at level 100, right associativity).

(** Run a computation on a component of a larger state. *)
Definition zoom {S T A} (rd : T → S) (wr : S → T → T) (m : M S A) : M T A :=
  λ t, let o := m (rd t) in Outcome (wr (final o) t) (trace o) (result o).

(** [data.decode("utf-8")] *)
Definition decode_utf8 {S} (data : string) : M S string :=
  if PyStr.utf8_valid data then ret data else raise UnicodeDecodeError.

(** [text.encode("utf-8")] *)
Definition encode_utf8 {S} (text : string) : M S string :=
  if PyStr.utf8_valid text then ret text else raise UnicodeEncodeError.

(** [messaging.send_message(dest, Message(data, ttl=ttl))] *)
Definition send_message {S} (dest : string) (data : string) (ttl : Z)
  : M S unit :=
  emit (Send dest data ttl).

(** ** The broker *)

(** The dict of channel names, each mapped to the set of subscriber
    identities. *)
Abbreviation registry := (gmap string (gset string)).

Module Registry.

(** [channel in channels] *)
Definition contains (channel : string) : M registry bool :=
  let* channels := get in ret (bool_decide (is_Some (channels !! channel))).

(** [channels[channel]] *)
Definition getitem (channel : string) : M registry (gset string) :=
  let* channels := get in
  match channels !! channel with
  | Some peers => ret peers
  | None => raise (KeyError channel)
  end.

(** [channels[channel] = peers] *)
Definition setitem (channel : string) (peers : gset string)
  : M registry unit :=
  let* channels := get in put (<[channel := peers]> channels).

(** [channels[channel].add(ident)]: the set object stored under the
    channel is updated in place. *)
Definition set_add (channel ident : string) : M registry unit :=
  let* peers := getitem channel in setitem channel (peers ∪ {[ident]}).

(** [channels[channel].remove(ident)]: [set.remove] raises [KeyError]
    when the element is missing. *)
Definition set_remove (channel ident : string) : M registry unit :=
  let* peers := getitem channel in
  if bool_decide (ident ∈ peers) then setitem channel (peers ∖ {[ident]})
  else raise (KeyError ident).

(** The peers a publish on [channel] fans out to: the channel's set, or
    nobody when the channel has no entry. *)
Definition subscribers (channels : registry) (channel : string)
  : gset string :=
  default ∅ (channels !! channel).

End Registry.

Module Broker.

(** Body of the loop in the SUBSCRIBE branch. *)
Definition subscribe_arg (ident : string) (ia : nat * string)
  : M registry unit :=
  let '(i, arg) := ia in
  if bool_decide (i ≠ 0%nat) then
    let channel := arg in
    let* known := Registry.contains channel in
    (if negb known then Registry.setitem channel ∅ else ret tt);;
    Registry.set_add channel ident
  else ret tt.

(** Body of the loop in the UNSUBSCRIBE branch. *)
Definition unsubscribe_arg (ident : string) (ia : nat * string)
  : M registry unit :=
  let '(i, arg) := ia in
  if bool_decide (i ≠ 0%nat) then
    let channel := arg in
    let* known := Registry.contains channel in
    if known then Registry.set_remove channel ident else ret tt
  else ret tt.

(** [Broker.on_recv(conn, ident, message)], with [data] the bytes of
    [message.data].  The state is the dict that [self.channels] denotes. *)
Definition on_recv (ident : string) (data : string) : M registry unit :=
  let* msg_text := decode_utf8 data in
  if PyStr.startswith msg_text "SUBSCRIBE " then
    let msg_split := PyStr.split PyStr.space msg_text in
    for_each (PyStr.enumerate msg_split) (subscribe_arg ident)
  else if PyStr.startswith msg_text "UNSUBSCRIBE " then
    let msg_split := PyStr.split PyStr.space msg_text in
    for_each (PyStr.enumerate msg_split) (unsubscribe_arg ident)
  else if PyStr.startswith msg_text "PUBLISH " then
    let msg_split := PyStr.split PyStr.space msg_text in
    if bool_decide (3 ≤ length msg_split)%nat then
      let channel := default "" (msg_split !! 1%nat) in
      let pub_msg_text := PyStr.join " " (drop 2 msg_split) in
      let* known := Registry.contains channel in
      if known then
        Registry.getitem channel;;
        for_set (λ channels, Registry.subscribers channels channel)
          (λ connection,
             let* pub_msg := encode_utf8 pub_msg_text in
             send_message connection pub_msg 60)
      else ret tt
    else ret tt
  else ret tt.

(** [Broker.on_drop(ident, message)]: [pass]. *)
Definition on_drop (ident : string) (data : string) : M registry unit :=
  ret tt.

(** *** Instances and the class attribute

    [channels = {}] is evaluated once, in the class body: the dict belongs
    to the class.  No method assigns [self.channels]; every
    [self.channels] therefore resolves to the class attribute and all
    instances read and mutate that one dict. *)

Record process := Process { channels : registry }.

(** The state of the process when the class has just been defined. *)
Definition class_defined : process := Process ∅.

(** What [__init__] stores on the instance: the identity, the address the
    link listens on, and the callbacks added to the messaging layer's
    callback lists. *)
Record instance := Instance {
  broker_identity : string;
  listeners : list (string * Z);
  on_message_recv : list (string → string → M registry unit);
  on_message_drop : list (string → string → M registry unit);
  on_connect : list (string → M registry unit);
  on_disconnect : list (string → M registry unit)
}.

(** [Broker.__init__(broker_host, broker_port, broker_identity)] *)
Definition __init__ (broker_host : string) (broker_port : Z)
    (identity : string) : M process instance :=
  ret {| broker_identity := identity;
         listeners := [(broker_host, broker_port)];
         on_message_recv := [on_recv];
         on_message_drop := [on_drop];
         on_connect := [];
         on_disconnect := [] |}.

(** [self.channels] *)
Definition self_channels {A} (self : instance) (m : M registry A)
  : M process A :=
  zoom channels (λ channels _, Process channels) m.

(** What the transport reports to an instance. *)
Inductive event :=
| MessageRecv (ident data : string)
| MessageDrop (ident data : string)
| PeerConnected (ident : string)
| PeerDisconnected (ident : string).

(** The transport calls every callback added for the kind of event. *)
Definition dispatch (self : instance) (e : event) : M process unit :=
  self_channels self
    match e with
    | MessageRecv ident data =>
        for_each (on_message_recv self) (λ cb, cb ident data)
    | MessageDrop ident data =>
        for_each (on_message_drop self) (λ cb, cb ident data)
    | PeerConnected ident => for_each (on_connect self) (λ cb, cb ident)
    | PeerDisconnected ident =>
        for_each (on_disconnect self) (λ cb, cb ident)
    end.

(** A run of the loop over the events the transport delivers, in order.
    The source puts no handler around its callbacks: an exception raised by
    one ends the run. *)
Definition handle_events (self : instance) (events : list event)
  : M process unit :=
  for_each events (dispatch self).

End Broker.

(** ** The publisher *)

Module Publisher.

Record instance := Instance {
  broker_identity : string;
  my_identity : string
}.

(** [Publisher.publish(channel, message)] *)
Definition publish (self : instance) (channel message : string)
  : M unit unit :=
  let command := "PUBLISH " +:+ channel +:+ " " +:+ message in
  let* command_msg := encode_utf8 command in
  send_message (broker_identity self) command_msg 60.

End Publisher.

(** ** The subscriber *)

Module Subscriber.

Record instance := Instance {
  broker_identity : string;
  my_identity : string
}.

(** The state is [self.subscriptions], the set created by [__init__]. *)
Definition __init__ (broker_identity my_identity : string)
  : instance * gset string :=
  (Instance broker_identity my_identity, ∅).

(** [Subscriber.subscribe(channel)] *)
Definition subscribe (self : instance) (channel : string)
  : M (gset string) unit :=
  let command := "SUBSCRIBE " +:+ channel in
  let* command_msg := encode_utf8 command in
  send_message (broker_identity self) command_msg 60;;
  let* subscriptions := get in
  put (subscriptions ∪ {[channel]});;
  emit (Print ("Subscribed to " +:+ channel)).

(** [Subscriber.unsubscribe(channel)] *)
Definition unsubscribe (self : instance) (channel : string)
  : M (gset string) unit :=
  let command := "UNSUBSCRIBE " +:+ channel in
  let* command_msg := encode_utf8 command in
  send_message (broker_identity self) command_msg 60;;
  let* subscriptions := get in
  if bool_decide (channel ∈ subscriptions)
  then put (subscriptions ∖ {[channel]})
  else raise (KeyError channel).

(** [Subscriber.on_connect()] *)
Definition on_connect (self : instance) : M (gset string) unit :=
  for_set (λ subscriptions, subscriptions)
    (λ channel, subscribe self channel).

End Subscriber.

(** The payloads of the messages a trace hands to the transport for
    [dest], in order. *)
Fixpoint sent_to (dest : string) (tr : list effect) : list string :=
  match tr with
  | [] => []
  | Send d data _ :: tr' =>
      if bool_decide (d = dest) then data :: sent_to dest tr'
      else sent_to dest tr'
  | Print _ :: tr' => sent_to dest tr'
  end.

(** The peers a trace sends to, in order. *)
Fixpoint destinations (tr : list effect) : list string :=
  match tr with
  | [] => []
  | Send d _ _ :: tr' => d :: destinations tr'
  | Print _ :: tr' => destinations tr'
  end.

(** What the data model asks of a channel name: text without a space. *)
Definition channel_ok (channel : string) : bool :=
  PyStr.utf8_valid channel && negb (PyStr.contains PyStr.space channel).

(** The transport hands the broker, in order, the messages a peer's trace
    addressed to it. *)
Definition broker_receives (sender broker : string) (tr : list effect)
  : M registry unit :=
  for_each (sent_to broker tr) (Broker.on_recv sender).

(** What the specification says happens to the payload of a PUBLISH: every
    run of consecutive spaces becomes one space.  This follows the
    specification's words, not the source; it is what the forwarded payload
    is compared with. *)
Fixpoint spec_collapse_spaces (s : string) : string :=
  match s with
  | EmptyString => EmptyString
  | String c s' =>
      if Ascii.eqb c PyStr.space then
        match s' with
        | String d _ =>
            if Ascii.eqb d PyStr.space then spec_collapse_spaces s'
            else String c (spec_collapse_spaces s')
        | EmptyString => String c EmptyString
        end
      else String c (spec_collapse_spaces s')
  end.

(** A handler's outcome is observable when it raised or emitted something. *)
Definition observable {S A} (o : outcome S A) : Prop :=
  trace o ≠ [] ∨ ∃ e, result o = Raise e.

(** Two brokers in one process: the first handles a message, then the
    second is constructed and its [self.channels] is read. *)
Definition second_broker_sees
    (host1 : string) (port1 : Z) (identity1 : string)
    (host2 : string) (port2 : Z) (identity2 : string)
    (ident data : string) : M Broker.process registry :=
  let* b1 := Broker.__init__ host1 port1 identity1 in
  Broker.dispatch b1 (Broker.MessageRecv ident data);;
  let* b2 := Broker.__init__ host2 port2 identity2 in
  Broker.self_channels b2 get.

(** A broker listening on [localhost:4000] as the tests set it up, fed a
    sequence of transport events in a process where the class was just
    defined. *)
Definition broker_run (events : list Broker.event) : M Broker.process unit :=
  let* b := Broker.__init__ "localhost" 4000 "broker" in
  Broker.handle_events b events.

(** The text starts with one of the three verbs and the space after it:
    the tests [Broker.on_recv] makes. *)
Definition recognized (msg_text : string) : bool :=
  PyStr.startswith msg_text "SUBSCRIBE "
  || PyStr.startswith msg_text "UNSUBSCRIBE "
  || PyStr.startswith msg_text "PUBLISH ".

(** The registry after [ident] has been added under [channel]. *)
Definition add_peer (ident : string) (channels : registry) (channel : string)
  : registry :=
  <[channel := Registry.subscribers channels channel ∪ {[ident]}]> channels.

(** What one pass of the resubscription loop emits for a channel. *)
Definition resubscribe_effects (broker : string) (channel : string)
  : list effect :=
  [Send broker ("SUBSCRIBE " +:+ channel) 60;
   Print ("Subscribed to " +:+ channel)].

(** [channels'] comes from [channels] by taking [ident] out of some
    subscriber sets: the same channels have an entry, nobody was added, and
    nobody but [ident] was removed. *)
Definition only_removes (ident : string) (channels channels' : registry)
  : Prop :=
  dom channels' = dom channels
  ∧ (∀ ch q, q ∈ Registry.subscribers channels' ch →
             q ∈ Registry.subscribers channels ch)
  ∧ (∀ ch q, q ≠ ident → q ∈ Registry.subscribers channels ch →
             q ∈ Registry.subscribers channels' ch).

(** The broker has [me] under exactly the channels of the desired set. *)
Definition in_sync (me : string) (desired : gset string)
    (channels : registry) : Prop :=
  ∀ ch, me ∈ Registry.subscribers channels ch ↔ ch ∈ desired.

(** A broker constructed in a process and run over a sequence of
    transport events. *)
Definition broker_session (host : string) (port : Z) (identity : string)
    (events : list Broker.event) : M Broker.process unit :=
  let* b := Broker.__init__ host port identity in
  Broker.handle_events b events.

(** The event is an inbound message. *)
Definition is_message_recv (e : Broker.event) : bool :=
  match e with
  | Broker.MessageRecv _ _ => true
  | _ => false
  end.

(** * Properties *)

(** ** The model on small inputs *)

Example split_double_space :
  PyStr.split PyStr.space "a  b" = ["a"; ""; "b"].
Proof. reflexivity. Qed.

Example split_empty : PyStr.split PyStr.space "" = [""].
Proof. reflexivity. Qed.

Example join_three : PyStr.join " " ["a"; ""; "b"] = "a  b".
Proof. reflexivity. Qed.

Example utf8_ascii_ok : PyStr.utf8_valid "PUBLISH a hi" = true.
Proof. reflexivity. Qed.

Example utf8_ff_bad : PyStr.utf8_valid (String (ascii_of_N 255) "") = false.
Proof. reflexivity. Qed.

Example on_recv_subscribe_ex :
  final (Broker.on_recv "s1" "SUBSCRIBE a b" ∅) !! "a" = Some {["s1"]}.
Proof. vm_compute. reflexivity. Qed.

Example on_recv_publish_ex :
  trace (Broker.on_recv "pub" "PUBLISH a x  y"
           (<["a" := {["s1"]}]> ∅)) = [Send "s1" "x  y" 60].
Proof. vm_compute. reflexivity. Qed.

Example on_recv_unsubscribe_missing_ex :
  result (Broker.on_recv "s1" "UNSUBSCRIBE a" (<["a" := {["s2"]}]> ∅))
  = Raise (KeyError "s1").
Proof. vm_compute. reflexivity. Qed.

Example on_connect_ex :
  sent_to "broker"
    (trace (Subscriber.on_connect (Subscriber.Instance "broker" "s1")
              ({["x"]} ∪ {["y"]})))
  ≡ₚ ["SUBSCRIBE x"; "SUBSCRIBE y"].
Proof. vm_compute. apply perm_swap. Qed.

Example unsubscribe_ex :
  Subscriber.unsubscribe (Subscriber.Instance "broker" "s1") "a" ∅
  = Outcome ∅ [Send "broker" "UNSUBSCRIBE a" 60] (Raise (KeyError "a")).
Proof. vm_compute. reflexivity. Qed.

(** ** Strings *)

Section StringFacts.
Import PyStr.

Lemma app_cons c a b : String c a +:+ b = String c (a +:+ b).
Proof. reflexivity. Qed.

Lemma app_nil_l b : "" +:+ b = b.
Proof. reflexivity. Qed.

Lemma split_not_nil sep s : split sep s ≠ [].
Proof.
  destruct s as [|c s]; simpl; [done|].
  destruct (Ascii.eqb c sep); [done|].
  destruct (split sep s); done.
Qed.

Lemma split_no_sep sep a : contains sep a = false → split sep a = [a].
Proof.
  induction a as [|c a IH]; simpl; [done|].
  destruct (Ascii.eqb c sep); [done|].
  intros H. by rewrite (IH H).
Qed.

Lemma split_app_sep sep a b :
  contains sep a = false →
  split sep (a +:+ String sep b) = a :: split sep b.
Proof.
  induction a as [|c a IH]; intros H.
  - rewrite app_nil_l. simpl. by rewrite Ascii.eqb_refl.
  - rewrite app_cons. simpl in *.
    destruct (Ascii.eqb c sep); [done|].
    by rewrite (IH H).
Qed.

Lemma join_cons sep w l :
  l ≠ [] → join sep (w :: l) = w +:+ sep +:+ join sep l.
Proof. destruct l; done. Qed.

Lemma join_split sep s : join (String sep "") (split sep s) = s.
Proof.
  induction s as [|c s IH]; [done|].
  pose proof (split_not_nil sep s) as Hne.
  cbn [split]. destruct (Ascii.eqb c sep) eqn:E.
  - apply Ascii.eqb_eq in E as ->.
    by rewrite join_cons, IH.
  - destruct (split sep s) as [|w ws]; [done|].
    rewrite <- IH. destruct ws; reflexivity.
Qed.

Lemma startswith_app p s : startswith (p +:+ s) p = true.
Proof.
  induction p as [|c p IH]; [reflexivity|].
  rewrite app_cons. simpl. by rewrite Ascii.eqb_refl.
Qed.

Lemma utf8_valid_app a b :
  utf8_valid a = true → utf8_valid (a +:+ b) = utf8_valid b.
Proof.
  remember (String.length a) as n eqn:Hn.
  revert a Hn. induction (lt_wf n) as [n _ IH]. intros a -> Ha.
  destruct a as [|b0 r0]; [done|].
  rewrite app_cons. simpl in Ha |- *.
  destruct (byte_in 0 127 b0).
  { eapply IH; [|done..]. simpl. lia. }
  destruct (byte_in 194 223 b0).
  { destruct r0 as [|b1 r1]; [done|]. rewrite app_cons.
    apply andb_true_iff in Ha as [-> Ha]. simpl.
    eapply IH; [|done..]. simpl. lia. }
  destruct (byte_in 224 239 b0).
  { destruct r0 as [|b1 [|b2 r2]]; [done..|]. rewrite !app_cons.
    apply andb_true_iff in Ha as [Hb Ha].
    rewrite Hb. simpl.
    eapply IH; [|done..]. simpl. lia. }
  destruct (byte_in 240 244 b0); [|done].
  destruct r0 as [|b1 [|b2 [|b3 r3]]]; [done..|]. rewrite !app_cons.
  apply andb_true_iff in Ha as [Hb Ha].
  rewrite Hb. simpl.
  eapply IH; [|done..]. simpl. lia.
Qed.

(** A space never completes a multi-byte sequence: text cut at a space is
    well-formed on both sides. *)
Lemma utf8_valid_sep_inv a b :
  utf8_valid (a +:+ String space b) = true →
  utf8_valid a = true ∧ utf8_valid b = true.
Proof.
  remember (String.length a) as n eqn:Hn.
  revert a Hn. induction (lt_wf n) as [n _ IH]. intros a -> H.
  destruct a as [|b0 r0]; [by rewrite app_nil_l in H|].
  rewrite app_cons in H. simpl in H |- *.
  destruct (byte_in 0 127 b0).
  { eapply IH; [|done..]. simpl. lia. }
  destruct (byte_in 194 223 b0).
  { destruct r0 as [|b1 r1]; [done|]. rewrite app_cons in H.
    apply andb_true_iff in H as [-> H]. simpl.
    eapply IH; [|done..]. simpl. lia. }
  destruct (byte_in 224 239 b0).
  { destruct r0 as [|b1 [|b2 r2]].
    - rewrite app_nil_l in H. destruct b as [|b2 r2]; [done|].
      apply andb_true_iff in H as [[H _]%andb_true_iff _].
      unfold second3 in H. by repeat case_match.
    - rewrite !app_cons, app_nil_l in H.
      by apply andb_true_iff in H as [[_ H]%andb_true_iff _].
    - rewrite !app_cons in H.
      apply andb_true_iff in H as [-> H]. simpl.
      eapply IH; [|done..]. simpl. lia. }
  destruct (byte_in 240 244 b0); [|done].
  destruct r0 as [|b1 [|b2 [|b3 r3]]].
  - rewrite app_nil_l in H. destruct b as [|b2 [|b3 r3]]; [done..|].
    apply andb_true_iff in H as [[[H _]%andb_true_iff _]%andb_true_iff _].
    unfold second4 in H. by repeat case_match.
  - rewrite !app_cons, app_nil_l in H. destruct b as [|b3 r3]; [done|].
    by apply andb_true_iff in H as [[[_ H]%andb_true_iff _]%andb_true_iff _].
  - rewrite !app_cons, app_nil_l in H.
    by apply andb_true_iff in H as [[_ H]%andb_true_iff _].
  - rewrite !app_cons in H.
    apply andb_true_iff in H as [-> H]. simpl.
    eapply IH; [|done..]. simpl. lia.
Qed.
End StringFacts.

(** ** The monad and its loops *)

Section LoopFacts.
Context {S : Type}.

Lemma bind_Ok {A B} (m : M S A) (k : A → M S B) s s' t a :
  m s = Outcome s' t (Ok a) →
  bind m k s
  = Outcome (final (k a s')) (t ++ trace (k a s')) (result (k a s')).
Proof. intros E. unfold bind. by rewrite E. Qed.

Lemma bind_Raise {A B} (m : M S A) (k : A → M S B) s s' t e :
  m s = Outcome s' t (Raise e) →
  bind m k s = Outcome s' t (Raise e).
Proof. intros E. unfold bind. by rewrite E. Qed.

Lemma outcome_eta {A} (o : outcome S A) :
  Outcome (final o) (trace o) (result o) = o.
Proof. by destruct o. Qed.

Lemma bind_silent {A B} (m : M S A) (k : A → M S B) s s' a :
  m s = Outcome s' [] (Ok a) → bind m k s = k a s'.
Proof. intros E. rewrite (bind_Ok _ _ _ _ _ _ E). apply outcome_eta. Qed.

Lemma encode_utf8_valid (text : string) (s : S) :
  PyStr.utf8_valid text = true →
  encode_utf8 text s = Outcome s [] (Ok text).
Proof. intros H. unfold encode_utf8. by rewrite H. Qed.

Lemma encode_utf8_invalid (text : string) (s : S) :
  PyStr.utf8_valid text = false →
  encode_utf8 text s = Outcome s [] (Raise UnicodeEncodeError).
Proof. intros H. unfold encode_utf8. by rewrite H. Qed.

Lemma encode_send (dest text : string) (s : S) :
  PyStr.utf8_valid text = true →
  (let* data := encode_utf8 text in send_message dest data 60) s
  = Outcome s [Send dest text 60] (Ok tt).
Proof.
  intros Hv. by rewrite (bind_silent _ _ _ _ _ (encode_utf8_valid _ s Hv)).
Qed.

Lemma for_each_send (l : list string) (text : string) (s : S) :
  PyStr.utf8_valid text = true →
  for_each l (λ dest, let* data := encode_utf8 text in
                      send_message dest data 60) s
  = Outcome s ((λ dest, Send dest text 60) <$> l) (Ok tt).
Proof.
  intros Hv. induction l as [|x l IH]; [done|].
  cbn [for_each].
  rewrite (bind_Ok _ _ _ _ _ _ (encode_send x text s Hv)).
  by rewrite IH.
Qed.

(** A loop over a set whose body keeps the set's size runs the body on
    each element and never trips the size check. *)
Lemma for_set_items_stable {A} (size_now : S → nat) used (l : list A)
    (body : A → M S unit) s :
  (∀ x s', size_now (final (body x s')) = size_now s') →
  size_now s = used →
  for_set_items size_now used l body s = for_each l body s.
Proof.
  intros Hbody. revert s. induction l as [|x l IH]; intros s Hs.
  - simpl. unfold check_size. by rewrite bool_decide_eq_true_2.
  - simpl. unfold bind at 1, check_size.
    rewrite bool_decide_eq_true_2 by done. simpl.
    unfold bind. destruct (body x s) as [s1 t1 [[]|e]] eqn:E; simpl; [|done].
    rewrite IH; [done|].
    specialize (Hbody x s). rewrite E in Hbody. simpl in Hbody. congruence.
Qed.
End LoopFacts.

(** ** Registry updates performed by the broker *)

Section RegistryFacts.
Implicit Types (channels : registry) (channel ident : string).

Lemma contains_spec channel channels :
  Registry.contains channel channels
  = Outcome channels [] (Ok (bool_decide (is_Some (channels !! channel)))).
Proof. reflexivity. Qed.

Lemma getitem_Some channel channels peers :
  channels !! channel = Some peers →
  Registry.getitem channel channels = Outcome channels [] (Ok peers).
Proof.
  intros E. unfold Registry.getitem.
  rewrite (bind_silent get _ channels channels channels) by done.
  by rewrite E.
Qed.

Lemma setitem_spec channel peers channels :
  Registry.setitem channel peers channels
  = Outcome (<[channel := peers]> channels) [] (Ok tt).
Proof. reflexivity. Qed.

Lemma set_add_spec channel ident channels peers :
  channels !! channel = Some peers →
  Registry.set_add channel ident channels
  = Outcome (<[channel := peers ∪ {[ident]}]> channels) [] (Ok tt).
Proof.
  intros E. unfold Registry.set_add.
  by rewrite (bind_silent _ _ _ _ _ (getitem_Some _ _ _ E)).
Qed.

Lemma set_remove_member channel ident channels peers :
  channels !! channel = Some peers → ident ∈ peers →
  Registry.set_remove channel ident channels
  = Outcome (<[channel := peers ∖ {[ident]}]> channels) [] (Ok tt).
Proof.
  intros E Hin. unfold Registry.set_remove.
  rewrite (bind_silent _ _ _ _ _ (getitem_Some _ _ _ E)).
  by rewrite bool_decide_eq_true_2.
Qed.

Lemma set_remove_missing channel ident channels peers :
  channels !! channel = Some peers → ident ∉ peers →
  Registry.set_remove channel ident channels
  = Outcome channels [] (Raise (KeyError ident)).
Proof.
  intros E Hin. unfold Registry.set_remove.
  rewrite (bind_silent _ _ _ _ _ (getitem_Some _ _ _ E)).
  by rewrite bool_decide_eq_false_2.
Qed.

Lemma subscribe_arg_spec ident i channel channels :
  Broker.subscribe_arg ident (Datatypes.S i, channel) channels
  = Outcome (add_peer ident channels channel) [] (Ok tt).
Proof.
  unfold Broker.subscribe_arg, add_peer, Registry.subscribers.
  rewrite bool_decide_eq_true_2 by done.
  rewrite (bind_silent _ _ _ _ _ (contains_spec _ _)).
  destruct (channels !! channel) as [peers|] eqn:E.
  - rewrite bool_decide_eq_true_2 by done. simpl.
    rewrite (bind_silent (ret tt) _ channels channels tt) by done.
    by apply set_add_spec.
  - rewrite bool_decide_eq_false_2 by (by intros [??]). simpl.
    rewrite (bind_silent _ _ _ _ _ (setitem_spec _ _ _)).
    erewrite set_add_spec by apply lookup_insert_eq.
    by rewrite insert_insert_eq.
Qed.

Lemma unsubscribe_arg_unknown ident i channel channels :
  channels !! channel = None →
  Broker.unsubscribe_arg ident (Datatypes.S i, channel) channels
  = Outcome channels [] (Ok tt).
Proof.
  intros E. unfold Broker.unsubscribe_arg.
  rewrite bool_decide_eq_true_2 by done.
  rewrite (bind_silent _ _ _ _ _ (contains_spec _ _)).
  rewrite E. by rewrite bool_decide_eq_false_2 by (by intros [??]).
Qed.

Lemma unsubscribe_arg_member ident i channel channels peers :
  channels !! channel = Some peers → ident ∈ peers →
  Broker.unsubscribe_arg ident (Datatypes.S i, channel) channels
  = Outcome (<[channel := peers ∖ {[ident]}]> channels) [] (Ok tt).
Proof.
  intros E Hin. unfold Broker.unsubscribe_arg.
  rewrite bool_decide_eq_true_2 by done.
  rewrite (bind_silent _ _ _ _ _ (contains_spec _ _)).
  rewrite E, bool_decide_eq_true_2 by done.
  by apply set_remove_member.
Qed.

Lemma unsubscribe_arg_missing ident i channel channels peers :
  channels !! channel = Some peers → ident ∉ peers →
  Broker.unsubscribe_arg ident (Datatypes.S i, channel) channels
  = Outcome channels [] (Raise (KeyError ident)).
Proof.
  intros E Hin. unfold Broker.unsubscribe_arg.
  rewrite bool_decide_eq_true_2 by done.
  rewrite (bind_silent _ _ _ _ _ (contains_spec _ _)).
  rewrite E, bool_decide_eq_true_2 by done.
  by apply (set_remove_missing _ _ _ peers).
Qed.

(** The SUBSCRIBE loop over the arguments that follow the verb. *)
Lemma subscribe_loop ident i (args : list string) channels :
  for_each (PyStr.enumerate_from (Datatypes.S i) args)
    (Broker.subscribe_arg ident) channels
  = Outcome (foldl (add_peer ident) channels args) [] (Ok tt).
Proof.
  revert i channels. induction args as [|a args IH]; intros i channels.
  - reflexivity.
  - cbn [PyStr.enumerate_from for_each foldl].
    rewrite (bind_silent _ _ _ _ _ (subscribe_arg_spec _ _ _ _)).
    apply IH.
Qed.
End RegistryFacts.

(** ** The three branches of [Broker.on_recv] *)

Section OnRecvFacts.
Import PyStr.
Implicit Types (channels : registry) (channel ident data : string).

Lemma on_recv_undecodable ident data channels :
  utf8_valid data = false →
  Broker.on_recv ident data channels
  = Outcome channels [] (Raise UnicodeDecodeError).
Proof.
  intros H. unfold Broker.on_recv, decode_utf8. rewrite H.
  by apply bind_Raise.
Qed.

Lemma startswith_publish_only data :
  startswith data "PUBLISH " = true →
  startswith data "SUBSCRIBE " = false ∧
  startswith data "UNSUBSCRIBE " = false.
Proof.
  intros H. destruct data as [|c data]; [done|].
  simpl in H. destruct (Ascii.eqb c "P") eqn:E; [|done].
  apply Ascii.eqb_eq in E as ->. done.
Qed.

Lemma startswith_unsubscribe_only data :
  startswith data "UNSUBSCRIBE " = true →
  startswith data "SUBSCRIBE " = false.
Proof.
  intros H. destruct data as [|c data]; [done|].
  simpl in H. destruct (Ascii.eqb c "U") eqn:E; [|done].
  apply Ascii.eqb_eq in E as ->. done.
Qed.

Lemma on_recv_subscribe ident data channels :
  utf8_valid data = true →
  startswith data "SUBSCRIBE " = true →
  Broker.on_recv ident data channels
  = Outcome (foldl (add_peer ident) channels (tail (split space data)))
      [] (Ok tt).
Proof.
  intros Hv Hs. unfold Broker.on_recv, decode_utf8. rewrite Hv.
  rewrite (bind_silent (ret data) _ channels channels data) by done.
  rewrite Hs. unfold enumerate.
  destruct (split space data) as [|verb args]; [done|].
  cbn [enumerate_from for_each tail].
  rewrite (bind_silent _ _ channels channels tt) by done.
  apply subscribe_loop.
Qed.

(** The payload of a decodable PUBLISH line is text again. *)
Lemma publish_payload_valid data verb channel w rest :
  utf8_valid data = true →
  split space data = verb :: channel :: w :: rest →
  utf8_valid (join " " (w :: rest)) = true.
Proof.
  intros Hv Hsplit. pose proof (join_split space data) as Hjoin.
  rewrite Hsplit, !join_cons in Hjoin by done.
  rewrite <- Hjoin in Hv.
  change (verb +:+ String space (channel +:+
            String space (join (String space "") (w :: rest))))
    with (verb +:+ String space "" +:+ channel +:+ String space ""
          +:+ join (String space "") (w :: rest)) in *.
  apply utf8_valid_sep_inv in Hv as [_ Hv].
  by apply utf8_valid_sep_inv in Hv as [_ Hv].
Qed.

Lemma on_recv_publish ident data channels verb channel w rest :
  utf8_valid data = true →
  startswith data "PUBLISH " = true →
  split space data = verb :: channel :: w :: rest →
  Broker.on_recv ident data channels
  = Outcome channels
      ((λ peer, Send peer (join " " (w :: rest)) 60)
         <$> elements (Registry.subscribers channels channel))
      (Ok tt).
Proof.
  intros Hv Hp Hsplit.
  pose proof (publish_payload_valid _ _ _ _ _ Hv Hsplit) as Hpay.
  destruct (startswith_publish_only _ Hp) as [Hs Hu].
  unfold Broker.on_recv, decode_utf8. rewrite Hv.
  rewrite (bind_silent (ret data) _ channels channels data) by done.
  rewrite Hs, Hu, Hp, Hsplit.
  rewrite bool_decide_eq_true_2 by (simpl; lia).
  cbn [lookup list_lookup default drop]. unfold id.
  rewrite (bind_silent _ _ _ _ _ (contains_spec _ _)).
  unfold Registry.subscribers at 2.
  destruct (channels !! channel) as [peers|] eqn:E.
  - rewrite bool_decide_eq_true_2 by done.
    rewrite (bind_silent _ _ _ _ _ (getitem_Some _ _ _ E)).
    unfold for_set.
    rewrite for_set_items_stable;
      [|by intros x s'; rewrite (encode_send _ _ _ Hpay)|done].
    unfold Registry.subscribers. rewrite E. simpl.
    by apply for_each_send.
  - rewrite bool_decide_eq_false_2 by (by intros [??]).
    simpl. by rewrite elements_empty.
Qed.

Lemma on_recv_ignored ident data channels :
  utf8_valid data = true →
  startswith data "SUBSCRIBE " = false →
  startswith data "UNSUBSCRIBE " = false →
  startswith data "PUBLISH " = false
  ∨ (length (split space data) < 3)%nat →
  Broker.on_recv ident data channels = Outcome channels [] (Ok tt).
Proof.
  intros Hv Hs Hu Hp. unfold Broker.on_recv, decode_utf8. rewrite Hv.
  rewrite (bind_silent (ret data) _ channels channels data) by done.
  rewrite Hs, Hu.
  destruct (startswith data "PUBLISH "); [|done].
  destruct Hp as [|Hp]; [done|].
  by rewrite bool_decide_eq_false_2 by lia.
Qed.

(** The command lines the clients build. *)
Lemma subscribe_command_split channel :
  contains space channel = false →
  split space ("SUBSCRIBE " +:+ channel) = ["SUBSCRIBE"; channel].
Proof.
  intros H. change ("SUBSCRIBE " +:+ channel)
    with ("SUBSCRIBE" +:+ String space channel).
  by rewrite split_app_sep, split_no_sep.
Qed.

Lemma unsubscribe_command_split channel :
  contains space channel = false →
  split space ("UNSUBSCRIBE " +:+ channel) = ["UNSUBSCRIBE"; channel].
Proof.
  intros H. change ("UNSUBSCRIBE " +:+ channel)
    with ("UNSUBSCRIBE" +:+ String space channel).
  by rewrite split_app_sep, split_no_sep.
Qed.

Lemma publish_command_split channel message :
  contains space channel = false →
  split space ("PUBLISH " +:+ channel +:+ " " +:+ message)
  = "PUBLISH" :: channel :: split space message.
Proof.
  intros H. change ("PUBLISH " +:+ channel +:+ " " +:+ message)
    with ("PUBLISH" +:+ String space (channel +:+ String space message)).
  by rewrite !split_app_sep.
Qed.

Lemma channel_ok_valid channel :
  channel_ok channel = true →
  utf8_valid channel = true ∧ contains space channel = false.
Proof.
  unfold channel_ok. intros [? ?%negb_true_iff]%andb_true_iff. done.
Qed.

Lemma publish_command_valid channel message :
  utf8_valid channel = true → utf8_valid message = true →
  utf8_valid ("PUBLISH " +:+ channel +:+ " " +:+ message) = true.
Proof.
  intros Hc Hm.
  rewrite (utf8_valid_app "PUBLISH ") by done.
  rewrite (utf8_valid_app channel) by done.
  by rewrite (utf8_valid_app " ").
Qed.

(** A PUBLISH built by the publisher, handled by the broker. *)
Lemma on_recv_publish_command ident channel message channels :
  channel_ok channel = true → utf8_valid message = true →
  Broker.on_recv ident ("PUBLISH " +:+ channel +:+ " " +:+ message) channels
  = Outcome channels
      ((λ peer, Send peer message 60)
         <$> elements (Registry.subscribers channels channel))
      (Ok tt).
Proof.
  intros [Hv Hsp]%channel_ok_valid Hm.
  pose proof (publish_command_split channel message Hsp) as Hsplit.
  pose proof (split_not_nil space message) as Hne.
  pose proof (join_split space message) as Hjoin.
  destruct (split space message) as [|w rest]; [done|].
  rewrite (on_recv_publish ident _ channels _ _ _ _
             (publish_command_valid _ _ Hv Hm)
             (startswith_app "PUBLISH " _) Hsplit).
  unfold space in Hjoin. by rewrite Hjoin.
Qed.
End OnRecvFacts.

(** ** Membership after additions, and reading a trace *)

Section MembershipFacts.
Implicit Types (channels : registry) (channel ident peer : string).

Lemma subscribers_add_peer ident channels channel ch :
  Registry.subscribers (add_peer ident channels channel) ch
  = if decide (channel = ch)
    then Registry.subscribers channels channel ∪ {[ident]}
    else Registry.subscribers channels ch.
Proof.
  unfold add_peer. unfold Registry.subscribers at 1.
  rewrite lookup_insert. by case_decide.
Qed.

Lemma elem_of_subscribers_add_peer peer ident channels channel ch :
  peer ∈ Registry.subscribers (add_peer ident channels channel) ch
  ↔ peer ∈ Registry.subscribers channels ch
    ∨ (peer = ident ∧ ch = channel).
Proof.
  rewrite subscribers_add_peer. case_decide; set_solver.
Qed.

Lemma elem_of_subscribers_foldl peer ident channels (l : list string) ch :
  peer ∈ Registry.subscribers (foldl (add_peer ident) channels l) ch
  ↔ peer ∈ Registry.subscribers channels ch ∨ (peer = ident ∧ ch ∈ l).
Proof.
  revert channels. induction l as [|c l IH]; intros channels; simpl.
  - set_solver.
  - rewrite IH, elem_of_subscribers_add_peer. set_solver.
Qed.

Lemma add_peer_again ident channels channel :
  add_peer ident (add_peer ident channels channel) channel
  = add_peer ident channels channel.
Proof.
  unfold add_peer at 1. rewrite subscribers_add_peer.
  rewrite decide_True by done.
  unfold add_peer. rewrite insert_insert_eq. f_equal. set_solver.
Qed.

Lemma lookup_foldl_add_peer ident channels (l : list string) ch :
  foldl (add_peer ident) channels l !! ch
  = if decide (ch ∈ l)
    then Some (Registry.subscribers channels ch ∪ {[ident]})
    else channels !! ch.
Proof.
  revert channels. induction l as [|x l IH]; intros channels.
  - cbn [foldl]. destruct (decide (ch ∈ [])) as [Hin|_]; [|done].
    by apply elem_of_nil in Hin.
  - cbn [foldl]. rewrite IH. destruct (decide (ch ∈ l)) as [Hin|Hnin].
    + destruct (decide (ch ∈ x :: l)) as [_|Hn]; [|set_solver]. f_equal.
      rewrite subscribers_add_peer. case_decide; set_solver.
    + unfold add_peer. rewrite lookup_insert.
      destruct (decide (x = ch)) as [->|Hne].
      * destruct (decide (ch ∈ ch :: l)) as [_|Hn]; [done|set_solver].
      * destruct (decide (ch ∈ x :: l)) as [Hin|_]; [set_solver|done].
Qed.

Lemma foldl_add_peer_again ident channels (l : list string) :
  foldl (add_peer ident) (foldl (add_peer ident) channels l) l
  = foldl (add_peer ident) channels l.
Proof.
  apply map_eq. intros ch. rewrite (lookup_foldl_add_peer _ (foldl _ _ _)).
  unfold Registry.subscribers at 1. rewrite !lookup_foldl_add_peer.
  case_decide; [|done]. simpl. f_equal. set_solver.
Qed.

Lemma destinations_send (l : list string) text :
  destinations ((λ peer, Send peer text 60) <$> l) = l.
Proof. induction l as [|x l IH]; csimpl; [done|]. by rewrite IH. Qed.

Lemma sent_to_send_other peer (l : list string) text :
  peer ∉ l → sent_to peer ((λ q, Send q text 60) <$> l) = [].
Proof.
  induction l as [|x l IH]; csimpl; [done|]. intros Hn.
  rewrite bool_decide_eq_false_2 by set_solver.
  apply IH. set_solver.
Qed.

Lemma sent_to_send_once peer (l : list string) text :
  NoDup l → peer ∈ l → sent_to peer ((λ q, Send q text 60) <$> l) = [text].
Proof.
  induction l as [|x l IH]; csimpl; [set_solver|].
  intros [Hx Hl]%NoDup_cons Hin.
  destruct (decide (x = peer)) as [->|Hne].
  - rewrite bool_decide_eq_true_2 by done.
    by rewrite sent_to_send_other.
  - rewrite bool_decide_eq_false_2 by done.
    apply IH; [done|]. set_solver.
Qed.

Lemma filter_eq_absent (l : list string) peer :
  peer ∉ l → filter (λ q, q = peer) l = [].
Proof.
  induction l as [|x l IH]; [done|]. intros Hn.
  rewrite filter_cons_False by set_solver. apply IH. set_solver.
Qed.

Lemma count_in_NoDup (l : list string) peer :
  NoDup l → peer ∈ l → length (filter (λ q, q = peer) l) = 1%nat.
Proof.
  induction l as [|x l IH]; [set_solver|].
  intros [Hx Hl]%NoDup_cons Hin.
  destruct (decide (x = peer)) as [->|Hne].
  - rewrite filter_cons_True by done.
    by rewrite filter_eq_absent.
  - rewrite filter_cons_False by done. apply IH; [done|]. set_solver.
Qed.
End MembershipFacts.

(** * The claims *)

(** ** C8: subscribing twice *)

Lemma subscribe_command_valid channel :
  PyStr.utf8_valid channel = true →
  PyStr.utf8_valid ("SUBSCRIBE " +:+ channel) = true.
Proof. intros H. by rewrite (utf8_valid_app "SUBSCRIBE "). Qed.

Lemma on_recv_subscribe_command ident channel (channels : registry) :
  channel_ok channel = true →
  Broker.on_recv ident ("SUBSCRIBE " +:+ channel) channels
  = Outcome (add_peer ident channels channel) [] (Ok tt).
Proof.
  intros [Hv Hsp]%channel_ok_valid.
  rewrite on_recv_subscribe
    by (apply subscribe_command_valid, Hv || apply startswith_app).
  by rewrite subscribe_command_split.
Qed.

(** C8.  Registry add is idempotent: when the broker handles twice a
    SUBSCRIBE command from peer [p] that lists channel [c], both calls
    return normally, the second leaves the registry exactly as the first
    left it, [p] occurs exactly once among the subscribers of [c], and no
    identity occurs more than once in any channel's subscriber set. *)
Theorem C8_subscribe_twice_one_entry
    (c p data : string) (channels : registry) :
  PyStr.utf8_valid data = true →
  PyStr.startswith data "SUBSCRIBE " = true →
  c ∈ tail (PyStr.split PyStr.space data) →
  let once := Broker.on_recv p data channels in
  let twice := Broker.on_recv p data (final once) in
  result once = Ok tt ∧ result twice = Ok tt
  ∧ final twice = final once
  ∧ length (filter (λ q, q = p)
              (elements (Registry.subscribers (final twice) c))) = 1%nat
  ∧ ∀ ch, NoDup (elements (Registry.subscribers (final twice) ch)).
Proof.
  intros Hv Hs Hc once twice. subst once twice.
  rewrite !on_recv_subscribe by done. cbn [final trace result].
  rewrite foldl_add_peer_again. repeat split.
  - apply count_in_NoDup; [apply NoDup_elements|].
    apply elem_of_elements, elem_of_subscribers_foldl. by right.
  - intros ch. apply NoDup_elements.
Qed.

Lemma C8_subscribe_twice_one_entry_witness :
  let once := Broker.on_recv "s1" "SUBSCRIBE a b" (<["a" := {["s2"]}]> ∅) in
  let twice := Broker.on_recv "s1" "SUBSCRIBE a b" (final once) in
  result once = Ok tt ∧ result twice = Ok tt
  ∧ final twice = final once
  ∧ length (filter (λ q, q = "s1")
              (elements (Registry.subscribers (final twice) "a"))) = 1%nat
  ∧ ∀ ch, NoDup (elements (Registry.subscribers (final twice) ch)).
Proof.
  apply (C8_subscribe_twice_one_entry "a" "s1" "SUBSCRIBE a b"
           (<["a" := {["s2"]}]> ∅)).
  - reflexivity.
  - reflexivity.
  - apply (bool_decide_unpack _). vm_compute. exact I.
Defined.

(** ** C6: fan-out *)

(** C6.  Handling one PUBLISH on channel [c] (a line that starts with
    [PUBLISH ], whose second field is [c] and that has at least one more
    field) returns normally, leaves the registry as it was, and hands the
    transport exactly one message per peer subscribed to [c], carrying the
    payload, and nothing else: the destinations are the elements of the
    subscriber set without repetition, their number is the size of the set,
    a subscribed peer is sent the payload once and a peer that is not
    subscribed nothing.  The sender is treated like any other peer: it is
    sent the message exactly when it is itself subscribed. *)
Theorem C6_publish_fans_out_once_each
    (sender data verb c w : string) (rest : list string)
    (channels : registry) :
  PyStr.utf8_valid data = true →
  PyStr.startswith data "PUBLISH " = true →
  PyStr.split PyStr.space data = verb :: c :: w :: rest →
  let o := Broker.on_recv sender data channels in
  let peers := Registry.subscribers channels c in
  let payload := PyStr.join " " (w :: rest) in
  result o = Ok tt ∧ final o = channels
  ∧ destinations (trace o) ≡ₚ elements peers
  ∧ NoDup (destinations (trace o))
  ∧ length (trace o) = size peers
  ∧ Forall (λ e, ∃ peer, peer ∈ peers ∧ e = Send peer payload 60) (trace o)
  ∧ (∀ peer, peer ∈ peers → sent_to peer (trace o) = [payload])
  ∧ (∀ peer, peer ∉ peers → sent_to peer (trace o) = [])
  ∧ (sender ∈ destinations (trace o) ↔ sender ∈ peers).
Proof.
  intros Hv Hp Hsplit o peers payload. subst o peers payload.
  rewrite (on_recv_publish _ _ _ _ _ _ _ Hv Hp Hsplit).
  cbn [final trace result].
  set (peers := Registry.subscribers channels c).
  rewrite destinations_send.
  split; [done|]. split; [done|]. split; [done|]. repeat split.
  - apply NoDup_elements.
  - by rewrite length_fmap.
  - apply Forall_fmap, Forall_forall. intros peer Hin. simpl.
    exists peer. split; [by apply elem_of_elements|done].
  - intros peer Hin. apply sent_to_send_once; [apply NoDup_elements|].
    by apply elem_of_elements.
  - intros peer Hin. apply sent_to_send_other. by rewrite elem_of_elements.
  - by intros ?%elem_of_elements.
  - by intros ?%elem_of_elements.
Qed.

Lemma C6_publish_fans_out_once_each_witness :
  let channels : registry := <["a" := {["s1"]} ∪ {["s2"]}]> ∅ in
  let o := Broker.on_recv "s1" "PUBLISH a hi there" channels in
  let peers := Registry.subscribers channels "a" in
  let payload := PyStr.join " " ["hi"; "there"] in
  result o = Ok tt ∧ final o = channels
  ∧ destinations (trace o) ≡ₚ elements peers
  ∧ NoDup (destinations (trace o))
  ∧ length (trace o) = size peers
  ∧ Forall (λ e, ∃ peer, peer ∈ peers ∧ e = Send peer payload 60) (trace o)
  ∧ (∀ peer, peer ∈ peers → sent_to peer (trace o) = [payload])
  ∧ (∀ peer, peer ∉ peers → sent_to peer (trace o) = [])
  ∧ ("s1" ∈ destinations (trace o) ↔ "s1" ∈ peers).
Proof.
  apply (C6_publish_fans_out_once_each "s1" "PUBLISH a hi there"
           "PUBLISH" "a" "hi" ["there"]); reflexivity.
Defined.

(** ** C10: unsubscribing from a channel that is not desired *)

Lemma unsubscribe_command_valid channel :
  PyStr.utf8_valid channel = true →
  PyStr.utf8_valid ("UNSUBSCRIBE " +:+ channel) = true.
Proof. intros H. by rewrite (utf8_valid_app "UNSUBSCRIBE "). Qed.

(** What [unsubscribe] does up to the test of the desired set, for a
    channel that is text. *)
Lemma unsubscribe_sends self channel (subscriptions : gset string) :
  PyStr.utf8_valid channel = true →
  Subscriber.unsubscribe self channel subscriptions
  = let o := (if bool_decide (channel ∈ subscriptions)
              then put (subscriptions ∖ {[channel]})
              else raise (KeyError channel)) subscriptions in
    Outcome (final o)
      (Send (Subscriber.broker_identity self) ("UNSUBSCRIBE " +:+ channel) 60
       :: trace o)
      (result o).
Proof.
  intros Hv. unfold Subscriber.unsubscribe.
  rewrite (bind_silent _ _ _ _ _
             (encode_utf8_valid _ subscriptions
                (unsubscribe_command_valid _ Hv))).
  erewrite bind_Ok by reflexivity.
  by rewrite (bind_silent get _ subscriptions subscriptions subscriptions).
Qed.

(** C10, as stated, fails for a channel that has no UTF-8 encoding (here
    the one that stands for the lone surrogate of byte 255): the command is
    encoded before it is handed over, [encode] raises
    [UnicodeEncodeError], and nothing has been sent: the error is not a
    [KeyError] and no command has reached the transport. *)
Lemma C10_counterexample_unencodable_channel :
  let self := Subscriber.Instance "broker" "s1" in
  let c := String (ascii_of_N 255) "" in
  let o := Subscriber.unsubscribe self c ∅ in
  (c ∉ (∅ : gset string))
  ∧ result o = Raise UnicodeEncodeError
  ∧ result o ≠ Raise (KeyError c)
  ∧ trace o = [].
Proof.
  cbv zeta. split; [set_solver|]. vm_compute.
  split; [reflexivity|]. split; [discriminate|reflexivity].
Qed.

(** C10, amended.  When [c] is text that can be encoded and is not in the
    subscriber's desired set, [Subscriber.unsubscribe(c)] raises
    [KeyError] for [c] after it has handed the command [UNSUBSCRIBE c] to
    the transport for the broker; the desired set is as before. *)
Theorem C10_unsubscribe_unknown_sends_then_raises
    (self : Subscriber.instance) (c : string) (subscriptions : gset string) :
  PyStr.utf8_valid c = true →
  c ∉ subscriptions →
  Subscriber.unsubscribe self c subscriptions
  = Outcome subscriptions
      [Send (Subscriber.broker_identity self) ("UNSUBSCRIBE " +:+ c) 60]
      (Raise (KeyError c)).
Proof.
  intros Hv Hn. rewrite unsubscribe_sends by done.
  by rewrite bool_decide_eq_false_2.
Qed.

Lemma C10_unsubscribe_unknown_sends_then_raises_witness :
  Subscriber.unsubscribe (Subscriber.Instance "broker" "s1") "b" {["a"]}
  = Outcome {["a"]} [Send "broker" ("UNSUBSCRIBE " +:+ "b") 60]
      (Raise (KeyError "b")).
Proof.
  apply (C10_unsubscribe_unknown_sends_then_raises
           (Subscriber.Instance "broker" "s1") "b" {["a"]}).
  - reflexivity.
  - apply (bool_decide_unpack _). vm_compute. exact I.
Defined.

(** ** C4: the payload of a PUBLISH *)

Example spec_collapse_spaces_ex : spec_collapse_spaces "x  y" = "x y".
Proof. reflexivity. Qed.

(** C4, as stated, fails: the publisher publishes ["x  y"] (two spaces)
    on channel [a]; the broker forwards ["x  y"] with both spaces, not the
    collapsed ["x y"].  [split(" ")] keeps an empty field between adjacent
    spaces and [" ".join] puts the spaces back. *)
Lemma C4_counterexample_spaces_kept :
  let pub := Publisher.Instance "broker" "publisher" in
  let sent := trace (Publisher.publish pub "a" "x  y" tt) in
  let o := broker_receives "publisher" "broker" sent (<["a" := {["s1"]}]> ∅) in
  sent_to "s1" (trace o) = ["x  y"]
  ∧ sent_to "s1" (trace o) ≠ [spec_collapse_spaces "x  y"].
Proof. vm_compute. split; [reflexivity|discriminate]. Qed.

(** C4, amended.  A PUBLISH built by [Publisher.publish] for a channel
    without spaces reaches the broker as the one line
    [PUBLISH channel message]; the broker takes the fields after the
    channel, joins them with single spaces, and this is the published
    message unchanged, runs of spaces included.  Every message the broker
    then sends carries exactly that payload, and each subscriber of the
    channel is sent it. *)
Theorem C4_publish_payload_preserved
    (pub : Publisher.instance) (c m : string) (channels : registry) :
  channel_ok c = true → PyStr.utf8_valid m = true →
  let sent := trace (Publisher.publish pub c m tt) in
  let command := "PUBLISH " +:+ c +:+ " " +:+ m in
  let o := broker_receives (Publisher.my_identity pub)
             (Publisher.broker_identity pub) sent channels in
  sent_to (Publisher.broker_identity pub) sent = [command]
  ∧ PyStr.split PyStr.space command !! 1%nat = Some c
  ∧ PyStr.join " " (drop 2 (PyStr.split PyStr.space command)) = m
  ∧ result o = Ok tt
  ∧ Forall (λ e, ∃ peer, e = Send peer m 60) (trace o)
  ∧ ∀ peer, peer ∈ Registry.subscribers channels c →
            sent_to peer (trace o) = [m].
Proof.
  intros Hc Hm sent command o. subst sent command o.
  destruct (channel_ok_valid _ Hc) as [Hv Hsp].
  rewrite publish_command_split by done.
  pose proof (join_split PyStr.space m) as Hjoin. unfold PyStr.space in Hjoin.
  assert (sent_to (Publisher.broker_identity pub)
            (trace (Publisher.publish pub c m tt))
          = ["PUBLISH " +:+ c +:+ " " +:+ m]) as Hsent.
  { unfold Publisher.publish.
    rewrite (encode_send _ _ _ (publish_command_valid _ _ Hv Hm)).
    cbn [trace sent_to]. by rewrite bool_decide_eq_true_2. }
  unfold broker_receives. rewrite Hsent. cbn [for_each].
  split; [done|]. split; [done|]. split; [exact Hjoin|].
  erewrite bind_Ok by (by apply on_recv_publish_command).
  cbn [ret final trace result]. rewrite app_nil_r.
  split; [done|]. split.
  - apply Forall_fmap, Forall_forall. intros peer _. by exists peer.
  - intros peer Hin. apply sent_to_send_once; [apply NoDup_elements|].
    by apply elem_of_elements.
Qed.

Lemma C4_publish_payload_preserved_witness :
  let pub := Publisher.Instance "broker" "publisher" in
  let channels : registry := <["a" := {["s1"]}]> ∅ in
  let sent := trace (Publisher.publish pub "a" "x  y" tt) in
  let command := "PUBLISH " +:+ "a" +:+ " " +:+ "x  y" in
  let o := broker_receives "publisher" "broker" sent channels in
  sent_to "broker" sent = [command]
  ∧ PyStr.split PyStr.space command !! 1%nat = Some "a"
  ∧ PyStr.join " " (drop 2 (PyStr.split PyStr.space command)) = "x  y"
  ∧ result o = Ok tt
  ∧ Forall (λ e, ∃ peer, e = Send peer "x  y" 60) (trace o)
  ∧ ∀ peer, peer ∈ Registry.subscribers channels "a" →
            sent_to peer (trace o) = ["x  y"].
Proof.
  apply (C4_publish_payload_preserved
           (Publisher.Instance "broker" "publisher") "a" "x  y");
    reflexivity.
Defined.

(** ** C5: text that is not a command *)

(** C5, as stated, fails: a payload without a verb and a PUBLISH with one
    argument are both dropped without any trace: nothing is raised, nothing
    is sent or printed, so there is nothing for anyone to observe. *)
Lemma C5_counterexample_nothing_reported :
  let channels : registry := <["a" := {["s1"]}]> ∅ in
  Broker.on_recv "s2" "HELLO world" channels = Outcome channels [] (Ok tt)
  ∧ ¬ observable (Broker.on_recv "s2" "HELLO world" channels)
  ∧ Broker.on_recv "s2" "PUBLISH a" channels = Outcome channels [] (Ok tt)
  ∧ ¬ observable (Broker.on_recv "s2" "PUBLISH a" channels).
Proof.
  vm_compute. repeat split; intros [H|[e H]]; done.
Qed.

(** C5, amended.  For every payload that is UTF-8 text and either does
    not start with [SUBSCRIBE ], [UNSUBSCRIBE ] or [PUBLISH ] (the verb and
    the space after it), or starts with [PUBLISH ] and has fewer than two
    arguments, [Broker.on_recv] returns normally, leaves the registry
    unchanged and emits nothing: the payload is ignored silently, with no
    error and no report. *)
Theorem C5_malformed_silently_ignored
    (ident data : string) (channels : registry) :
  PyStr.utf8_valid data = true →
  recognized data = false
  ∨ (PyStr.startswith data "PUBLISH " = true
     ∧ (length (PyStr.split PyStr.space data) < 3)%nat) →
  Broker.on_recv ident data channels = Outcome channels [] (Ok tt)
  ∧ ¬ observable (Broker.on_recv ident data channels).
Proof.
  intros Hv H.
  assert (Broker.on_recv ident data channels = Outcome channels [] (Ok tt))
    as ->.
  { destruct H as [H|[Hp Hlen]].
    - unfold recognized in H.
      apply orb_false_iff in H as [[Hs Hu]%orb_false_iff Hp].
      apply on_recv_ignored; auto.
    - destruct (startswith_publish_only _ Hp) as [Hs Hu].
      apply on_recv_ignored; auto. }
  split; [done|]. intros [H'|[e H']]; done.
Qed.

Lemma C5_malformed_silently_ignored_witness :
  Broker.on_recv "s2" "PUBLISH a" ∅ = Outcome ∅ [] (Ok tt)
  ∧ ¬ observable (Broker.on_recv "s2" "PUBLISH a" ∅).
Proof.
  apply (C5_malformed_silently_ignored "s2" "PUBLISH a" ∅).
  - reflexivity.
  - right. split; [reflexivity|]. vm_compute. lia.
Defined.

(** ** C1: UNSUBSCRIBE from a peer that is not subscribed *)

Lemma on_recv_unsubscribe ident data (channels : registry) verb args :
  PyStr.utf8_valid data = true →
  PyStr.startswith data "UNSUBSCRIBE " = true →
  PyStr.split PyStr.space data = verb :: args →
  Broker.on_recv ident data channels
  = for_each (PyStr.enumerate_from 1 args) (Broker.unsubscribe_arg ident)
      channels.
Proof.
  intros Hv Hu Hsplit. unfold Broker.on_recv, decode_utf8. rewrite Hv.
  rewrite (bind_silent (ret data) _ channels channels data) by done.
  rewrite (startswith_unsubscribe_only _ Hu), Hu, Hsplit.
  unfold PyStr.enumerate. cbn [PyStr.enumerate_from for_each].
  by rewrite (bind_silent _ _ channels channels tt).
Qed.

Lemma on_recv_unsubscribe_command ident channel (channels : registry) :
  channel_ok channel = true →
  Broker.on_recv ident ("UNSUBSCRIBE " +:+ channel) channels
  = (Broker.unsubscribe_arg ident (1%nat, channel);; ret tt) channels.
Proof.
  intros [Hv Hsp]%channel_ok_valid.
  rewrite (on_recv_unsubscribe ident _ channels "UNSUBSCRIBE" [channel]);
    [done| |apply startswith_app|by apply unsubscribe_command_split].
  by rewrite (utf8_valid_app "UNSUBSCRIBE ").
Qed.

(** The half of the claim that holds: a channel without an entry. *)
Lemma on_recv_unsubscribe_unknown_channel ident channel (channels : registry) :
  channel_ok channel = true → channels !! channel = None →
  Broker.on_recv ident ("UNSUBSCRIBE " +:+ channel) channels
  = Outcome channels [] (Ok tt).
Proof.
  intros Hc E. rewrite on_recv_unsubscribe_command by done.
  by rewrite (bind_silent _ _ _ _ _ (unsubscribe_arg_unknown _ _ _ _ E)).
Qed.

Lemma on_recv_unsubscribe_member ident channel (channels : registry) peers :
  channel_ok channel = true →
  channels !! channel = Some peers → ident ∈ peers →
  Broker.on_recv ident ("UNSUBSCRIBE " +:+ channel) channels
  = Outcome (<[channel := peers ∖ {[ident]}]> channels) [] (Ok tt).
Proof.
  intros Hc E Hin. rewrite on_recv_unsubscribe_command by done.
  by rewrite (bind_silent _ _ _ _ _
                (unsubscribe_arg_member _ _ _ _ _ E Hin)).
Qed.

(** The half that does not: the channel has an entry, the peer is not in
    its set, and [set.remove] raises. *)
Lemma on_recv_unsubscribe_missing_peer ident channel (channels : registry)
    peers :
  channel_ok channel = true →
  channels !! channel = Some peers → ident ∉ peers →
  Broker.on_recv ident ("UNSUBSCRIBE " +:+ channel) channels
  = Outcome channels [] (Raise (KeyError ident)).
Proof.
  intros Hc E Hin. rewrite on_recv_unsubscribe_command by done.
  by rewrite (bind_Raise _ _ _ _ _ _
                (unsubscribe_arg_missing _ _ _ _ _ E Hin)).
Qed.

(** C1.  The code at the failing input: channel [a] has the one subscriber
    [s2]; [UNSUBSCRIBE a] arrives from [s1].  The handler raises
    [KeyError] instead of doing nothing, both called directly and when the
    transport's callback list calls it; and in [UNSUBSCRIBE a b] the
    exception at [a] ends the loop before [b], so [s1] stays subscribed to
    [b]. *)
Theorem C1_unsubscribe_not_subscribed_raises :
  let channels : registry := <["a" := {["s2"]}]> ∅ in
  let both : registry := <["b" := {["s1"]}]> channels in
  Broker.on_recv "s1" "UNSUBSCRIBE a" channels
  = Outcome channels [] (Raise (KeyError "s1"))
  ∧ result (broker_run [Broker.MessageRecv "s2" "SUBSCRIBE a";
                        Broker.MessageRecv "s1" "UNSUBSCRIBE a"]
              Broker.class_defined)
    = Raise (KeyError "s1")
  ∧ Broker.on_recv "s1" "UNSUBSCRIBE a b" both
    = Outcome both [] (Raise (KeyError "s1")).
Proof. vm_compute. repeat split. Qed.

(** ** C2: a peer disconnects *)

Lemma init_callbacks host port identity w :
  Broker.__init__ host port identity w
  = Outcome w []
      (Ok {| Broker.broker_identity := identity;
             Broker.listeners := [(host, port)];
             Broker.on_message_recv := [Broker.on_recv];
             Broker.on_message_drop := [Broker.on_drop];
             Broker.on_connect := [];
             Broker.on_disconnect := [] |}).
Proof. reflexivity. Qed.

(** No callback is added for a disconnect, so the event changes nothing. *)
Lemma dispatch_disconnect_noop host port identity w0 b peer w :
  result (Broker.__init__ host port identity w0) = Ok b →
  Broker.dispatch b (Broker.PeerDisconnected peer) w = Outcome w [] (Ok tt).
Proof.
  rewrite init_callbacks. simpl. intros [= <-].
  unfold Broker.dispatch, Broker.self_channels, zoom. simpl.
  by destruct w.
Qed.

(** C2.  The code at the failing input: [subscriber1] subscribes to [a],
    the transport reports that [subscriber1] disconnected, then [a2] is
    published on [a].  After the disconnect [subscriber1] is still in the
    subscriber set of [a], and the publish is still sent to it. *)
Theorem C2_disconnect_keeps_subscription :
  let o := broker_run [Broker.MessageRecv "subscriber1" "SUBSCRIBE a";
                       Broker.PeerDisconnected "subscriber1"]
             Broker.class_defined in
  let o' := broker_run [Broker.MessageRecv "subscriber1" "SUBSCRIBE a";
                        Broker.PeerDisconnected "subscriber1";
                        Broker.MessageRecv "publisher" "PUBLISH a a2"]
              Broker.class_defined in
  result o = Ok tt
  ∧ Registry.subscribers (Broker.channels (final o)) "a"
    = {["subscriber1"]}
  ∧ trace o' = [Send "subscriber1" "a2" 60].
Proof. vm_compute. repeat split. Qed.

(** ** C3: whose registry it is *)

Lemma bind_ret_tt {S} (m : M S unit) s : (m;; ret tt) s = m s.
Proof.
  unfold bind. destruct (m s) as [s' t [[]|e]]; simpl; [|done].
  by rewrite app_nil_r.
Qed.

Lemma dispatch_recv host port identity w0 b ident data w :
  result (Broker.__init__ host port identity w0) = Ok b →
  Broker.dispatch b (Broker.MessageRecv ident data) w
  = let o := Broker.on_recv ident data (Broker.channels w) in
    Outcome (Broker.Process (final o)) (trace o) (result o).
Proof.
  rewrite init_callbacks. simpl. intros [= <-].
  unfold Broker.dispatch, Broker.self_channels, zoom.
  cbn [Broker.on_message_recv for_each]. by rewrite bind_ret_tt.
Qed.

(** C3, as stated, fails: one broker handles [SUBSCRIBE a] from [s1];
    a broker constructed afterwards, on another port and under another
    identity, does not start empty: its [self.channels] already has [s1]
    under [a]. *)
Lemma C3_counterexample_registry_shared :
  let seen := result (second_broker_sees "localhost" 4000 "broker"
                        "localhost" 4001 "broker2" "s1" "SUBSCRIBE a"
                        Broker.class_defined) in
  seen = Ok (<["a" := {["s1"]}]> ∅) ∧ seen ≠ Ok ∅.
Proof. vm_compute. split; [reflexivity|discriminate]. Qed.

(** C3, amended.  The registry is state of the class, shared by every
    Broker of the process: it is empty when the class has just been
    defined, constructing a Broker leaves it as it is, and what one
    instance adds while handling a SUBSCRIBE is what any other instance,
    also one constructed later, reads as its [self.channels]. *)
Theorem C3_registry_is_class_state
    (host1 : string) (port1 : Z) (identity1 : string)
    (host2 : string) (port2 : Z) (identity2 : string)
    (ident c : string) (w : Broker.process) :
  channel_ok c = true →
  (∀ b, result (Broker.self_channels b get Broker.class_defined) = Ok ∅)
  ∧ final (Broker.__init__ host1 port1 identity1 w) = w
  ∧ result (second_broker_sees host1 port1 identity1 host2 port2 identity2
              ident ("SUBSCRIBE " +:+ c) w)
    = Ok (add_peer ident (Broker.channels w) c).
Proof.
  intros Hc. split; [done|]. split; [done|].
  unfold second_broker_sees.
  rewrite (bind_silent _ _ _ _ _ (init_callbacks host1 port1 identity1 w)).
  set (b1 := Broker.Instance _ _ _ _ _ _).
  assert (Broker.dispatch b1 (Broker.MessageRecv ident ("SUBSCRIBE " +:+ c)) w
          = Outcome (Broker.Process (add_peer ident (Broker.channels w) c))
              [] (Ok tt)) as Hd.
  { rewrite (dispatch_recv host1 port1 identity1 w b1) by done.
    by rewrite on_recv_subscribe_command. }
  rewrite (bind_silent _ _ _ _ _ Hd).
  by rewrite (bind_silent _ _ _ _ _ (init_callbacks host2 port2 identity2 _)).
Qed.

Lemma C3_registry_is_class_state_witness :
  (∀ b, result (Broker.self_channels b get Broker.class_defined) = Ok ∅)
  ∧ final (Broker.__init__ "localhost" 4000 "broker" Broker.class_defined)
    = Broker.class_defined
  ∧ result (second_broker_sees "localhost" 4000 "broker"
              "localhost" 4001 "broker2"
              "s1" ("SUBSCRIBE " +:+ "a") Broker.class_defined)
    = Ok (add_peer "s1" (Broker.channels Broker.class_defined) "a").
Proof.
  apply (C3_registry_is_class_state "localhost" 4000 "broker"
           "localhost" 4001 "broker2" "s1" "a" Broker.class_defined).
  reflexivity.
Defined.

(** ** C7: resubscription when the link comes up *)

Lemma subscribe_spec self channel (subscriptions : gset string) :
  PyStr.utf8_valid channel = true →
  Subscriber.subscribe self channel subscriptions
  = Outcome (subscriptions ∪ {[channel]})
      (resubscribe_effects (Subscriber.broker_identity self) channel)
      (Ok tt).
Proof.
  intros Hv. unfold Subscriber.subscribe.
  by rewrite (bind_silent _ _ _ _ _
                (encode_utf8_valid _ subscriptions
                   (subscribe_command_valid _ Hv))).
Qed.

Lemma on_connect_items self (subscriptions : gset string) (l : list string) :
  Forall (λ channel, PyStr.utf8_valid channel = true) l →
  Forall (λ channel, channel ∈ subscriptions) l →
  for_set_items (λ s : gset string, size s) (size subscriptions) l
    (Subscriber.subscribe self) subscriptions
  = Outcome subscriptions
      (l ≫= resubscribe_effects (Subscriber.broker_identity self)) (Ok tt).
Proof.
  induction l as [|x l IH]; intros Hv Hl.
  - simpl. unfold check_size. by rewrite bool_decide_eq_true_2.
  - apply Forall_cons in Hl as [Hx Hl]. apply Forall_cons in Hv as [Hvx Hv].
    cbn [for_set_items].
    rewrite (bind_silent _ _ subscriptions subscriptions tt)
      by (unfold check_size; by rewrite bool_decide_eq_true_2).
    erewrite bind_Ok by (by apply subscribe_spec).
    replace (subscriptions ∪ {[x]}) with subscriptions by set_solver.
    rewrite (IH Hv Hl). reflexivity.
Qed.

Lemma on_connect_spec self (subscriptions : gset string) :
  forallb channel_ok (elements subscriptions) = true →
  Subscriber.on_connect self subscriptions
  = Outcome subscriptions
      (elements subscriptions
         ≫= resubscribe_effects (Subscriber.broker_identity self))
      (Ok tt).
Proof.
  intros Hok. unfold Subscriber.on_connect, for_set. apply on_connect_items.
  - apply Forall_forall. intros x Hx%list_elem_of_In.
    rewrite forallb_forall in Hok. apply Hok in Hx.
    by apply channel_ok_valid in Hx as [? _].
  - apply Forall_forall. intros x. by rewrite elem_of_elements.
Qed.

Lemma sent_to_resubscribe broker (l : list string) :
  sent_to broker (l ≫= resubscribe_effects broker)
  = (λ channel, "SUBSCRIBE " +:+ channel) <$> l.
Proof.
  induction l as [|x l IH]; csimpl; [done|].
  rewrite bool_decide_eq_true_2 by done. by rewrite IH.
Qed.

Lemma broker_handles_subscribes ident (l : list string) (channels : registry) :
  forallb channel_ok l = true →
  for_each ((λ channel, "SUBSCRIBE " +:+ channel) <$> l)
    (Broker.on_recv ident) channels
  = Outcome (foldl (add_peer ident) channels l) [] (Ok tt).
Proof.
  revert channels. induction l as [|x l IH]; intros channels Hl; [done|].
  simpl in Hl. apply andb_true_iff in Hl as [Hx Hl].
  csimpl. cbn [for_each].
  rewrite (bind_silent _ _ _ _ _ (on_recv_subscribe_command _ _ _ Hx)).
  by apply IH.
Qed.

(** C7, as stated, fails twice.  With the desired set [{x, y}] the
    subscriber hands the transport two commands, [SUBSCRIBE y] and
    [SUBSCRIBE x], not one command that lists both.  And when the broker
    still has the subscriber under a channel [z] that is not desired, it
    still has it there after the resync. *)
Lemma C7_counterexample_one_command_per_channel :
  let self := Subscriber.Instance "broker" "s1" in
  let desired : gset string := {["x"]} ∪ {["y"]} in
  let o := Subscriber.on_connect self desired in
  let sent := sent_to "broker" (trace o) in
  let stale : registry := <["z" := {["s1"]}]> ∅ in
  let after := final (broker_receives "s1" "broker" (trace o) stale) in
  length sent = 2%nat
  ∧ ¬ (∃ command, sent = [command])
  ∧ ("z" ∉ desired)
  ∧ ("s1" ∈ Registry.subscribers after "z").
Proof.
  cbv zeta. split; [by vm_compute|]. split.
  - intros [command H]. apply (f_equal length) in H. vm_compute in H.
    discriminate.
  - split; apply (bool_decide_unpack _); vm_compute; exact I.
Qed.

(** C7, amended.  On the connected event a Subscriber whose desired
    channels are space-free text sends the broker one SUBSCRIBE command
    per desired channel, each naming that one channel (none when the set is
    empty), returns normally and keeps its desired set.  When the broker
    has handled these commands, without error and without sending
    anything, its registry has the subscriber under every channel of the
    desired set and, besides those, under just the channels it already had
    it under; the entries of other peers are as before. *)
Theorem C7_resync_one_command_per_channel
    (self : Subscriber.instance) (desired : gset string)
    (channels : registry) :
  forallb channel_ok (elements desired) = true →
  let me := Subscriber.my_identity self in
  let broker := Subscriber.broker_identity self in
  let o := Subscriber.on_connect self desired in
  let handled := broker_receives me broker (trace o) channels in
  result o = Ok tt ∧ final o = desired
  ∧ sent_to broker (trace o)
    ≡ₚ (λ channel, "SUBSCRIBE " +:+ channel) <$> elements desired
  ∧ length (sent_to broker (trace o)) = size desired
  ∧ result handled = Ok tt ∧ trace handled = []
  ∧ (∀ channel, me ∈ Registry.subscribers (final handled) channel
                ↔ channel ∈ desired
                  ∨ me ∈ Registry.subscribers channels channel)
  ∧ (∀ channel peer, peer ≠ me →
        peer ∈ Registry.subscribers (final handled) channel
        ↔ peer ∈ Registry.subscribers channels channel).
Proof.
  intros Hok me broker o handled. subst o handled.
  unfold broker_receives. rewrite on_connect_spec by done.
  cbn [final trace result].
  fold broker. rewrite sent_to_resubscribe.
  rewrite broker_handles_subscribes by done. cbn [final trace result].
  split; [done|]. split; [done|]. split; [done|].
  split; [by rewrite length_fmap|]. split; [done|]. split; [done|]. split.
  - intros channel. rewrite elem_of_subscribers_foldl, elem_of_elements.
    naive_solver.
  - intros channel peer Hne. rewrite elem_of_subscribers_foldl.
    naive_solver.
Qed.

Lemma C7_resync_one_command_per_channel_witness :
  let self := Subscriber.Instance "broker" "s1" in
  let desired : gset string := {["x"]} ∪ {["y"]} in
  let channels : registry := <["z" := {["s1"]}]> ∅ in
  let me := Subscriber.my_identity self in
  let broker := Subscriber.broker_identity self in
  let o := Subscriber.on_connect self desired in
  let handled := broker_receives me broker (trace o) channels in
  result o = Ok tt ∧ final o = desired
  ∧ sent_to broker (trace o)
    ≡ₚ (λ channel, "SUBSCRIBE " +:+ channel) <$> elements desired
  ∧ length (sent_to broker (trace o)) = size desired
  ∧ result handled = Ok tt ∧ trace handled = []
  ∧ (∀ channel, me ∈ Registry.subscribers (final handled) channel
                ↔ channel ∈ desired
                  ∨ me ∈ Registry.subscribers channels channel)
  ∧ (∀ channel peer, peer ≠ me →
        peer ∈ Registry.subscribers (final handled) channel
        ↔ peer ∈ Registry.subscribers channels channel).
Proof.
  apply (C7_resync_one_command_per_channel
           (Subscriber.Instance "broker" "s1") ({["x"]} ∪ {["y"]})
           (<["z" := {["s1"]}]> ∅)).
  vm_compute. reflexivity.
Defined.

(** * Further properties of the code *)

(** ** The UNSUBSCRIBE loop *)

Section UnsubscribeFacts.
Implicit Types (channels : registry) (channel ident : string).

Lemma only_removes_refl ident channels : only_removes ident channels channels.
Proof. by repeat split. Qed.

Lemma only_removes_trans ident channels1 channels2 channels3 :
  only_removes ident channels1 channels2 →
  only_removes ident channels2 channels3 →
  only_removes ident channels1 channels3.
Proof.
  intros (Hd1 & Hs1 & Hk1) (Hd2 & Hs2 & Hk2). repeat split.
  - congruence.
  - intros ch q H. by apply Hs1, Hs2.
  - intros ch q Hne H. by apply Hk2, Hk1.
Qed.

Lemma subscribers_insert channels channel peers ch :
  Registry.subscribers (<[channel := peers]> channels) ch
  = if decide (channel = ch) then peers else Registry.subscribers channels ch.
Proof.
  unfold Registry.subscribers. rewrite lookup_insert. by case_decide.
Qed.

Lemma only_removes_remove ident channels channel peers :
  channels !! channel = Some peers →
  only_removes ident channels (<[channel := peers ∖ {[ident]}]> channels).
Proof.
  intros E. repeat split.
  - rewrite dom_insert_L. apply elem_of_dom_2 in E. set_solver.
  - intros ch q. rewrite subscribers_insert. case_decide as Hc; [|done].
    subst ch. unfold Registry.subscribers. rewrite E. set_solver.
  - intros ch q Hne. rewrite subscribers_insert. case_decide as Hc; [|done].
    subst ch. unfold Registry.subscribers. rewrite E. set_solver.
Qed.

Lemma unsubscribe_arg_step ident i channel channels :
  let o := Broker.unsubscribe_arg ident (Datatypes.S i, channel) channels in
  trace o = [] ∧ only_removes ident channels (final o).
Proof.
  destruct (channels !! channel) as [peers|] eqn:E.
  - destruct (decide (ident ∈ peers)) as [Hin|Hnin].
    + rewrite (unsubscribe_arg_member _ _ _ _ _ E Hin). simpl.
      split; [done|]. by apply only_removes_remove.
    + rewrite (unsubscribe_arg_missing _ _ _ _ _ E Hnin). simpl.
      split; [done|]. apply only_removes_refl.
  - rewrite (unsubscribe_arg_unknown _ _ _ _ E). simpl.
    split; [done|]. apply only_removes_refl.
Qed.

Lemma unsubscribe_loop ident i (args : list string) channels :
  let o := for_each (PyStr.enumerate_from (Datatypes.S i) args)
             (Broker.unsubscribe_arg ident) channels in
  trace o = [] ∧ only_removes ident channels (final o).
Proof.
  revert i channels. induction args as [|a args IH]; intros i channels.
  - simpl. split; [done|]. apply only_removes_refl.
  - cbn [PyStr.enumerate_from for_each].
    destruct (unsubscribe_arg_step ident i a channels) as [Ht Hr].
    destruct (Broker.unsubscribe_arg ident (Datatypes.S i, a) channels)
      as [channels1 t1 [[]|e]] eqn:E; simpl in Ht, Hr; subst t1.
    + rewrite (bind_silent _ _ _ _ _ E).
      destruct (IH (Datatypes.S i) channels1) as [Ht' Hr'].
      split; [done|]. by eapply only_removes_trans.
    + rewrite (bind_Raise _ _ _ _ _ _ E). by split.
Qed.

Lemma unsubscribe_loop_unknown ident i (args : list string) channels :
  Forall (λ channel, channels !! channel = None) args →
  for_each (PyStr.enumerate_from (Datatypes.S i) args)
    (Broker.unsubscribe_arg ident) channels
  = Outcome channels [] (Ok tt).
Proof.
  revert i. induction args as [|a args IH]; intros i Hall; [done|].
  apply Forall_cons in Hall as [Ha Hall].
  cbn [PyStr.enumerate_from for_each].
  rewrite (bind_silent _ _ _ _ _ (unsubscribe_arg_unknown _ _ _ _ Ha)).
  by apply IH.
Qed.
End UnsubscribeFacts.

(** ** What [Broker.on_recv] does, branch by branch, for any payload *)

Lemma on_recv_cases ident data (channels : registry) :
  let o := Broker.on_recv ident data channels in
  (PyStr.utf8_valid data = false
   ∧ o = Outcome channels [] (Raise UnicodeDecodeError))
  ∨ (PyStr.utf8_valid data = true
     ∧ PyStr.startswith data "SUBSCRIBE " = true
     ∧ o = Outcome (foldl (add_peer ident) channels
                      (tail (PyStr.split PyStr.space data))) [] (Ok tt))
  ∨ (PyStr.utf8_valid data = true
     ∧ PyStr.startswith data "SUBSCRIBE " = false
     ∧ PyStr.startswith data "UNSUBSCRIBE " = true
     ∧ o = for_each (PyStr.enumerate_from 1
                       (tail (PyStr.split PyStr.space data)))
             (Broker.unsubscribe_arg ident) channels)
  ∨ (PyStr.utf8_valid data = true
     ∧ PyStr.startswith data "SUBSCRIBE " = false
     ∧ PyStr.startswith data "UNSUBSCRIBE " = false
     ∧ ∃ (l : list string) text,
         o = Outcome channels ((λ peer, Send peer text 60) <$> l) (Ok tt)
         ∧ (PyStr.startswith data "PUBLISH " = false → l = [])).
Proof.
  intros o. subst o.
  destruct (PyStr.utf8_valid data) eqn:Hv.
  2:{ left. split; [done|]. by apply on_recv_undecodable. }
  right. destruct (PyStr.startswith data "SUBSCRIBE ") eqn:Hs.
  { left. split; [done|]. split; [done|]. by apply on_recv_subscribe. }
  right. destruct (PyStr.startswith data "UNSUBSCRIBE ") eqn:Hu.
  { left. split; [done|]. split; [done|]. split; [done|].
    pose proof (split_not_nil PyStr.space data) as Hne.
    destruct (PyStr.split PyStr.space data) as [|verb args] eqn:Hsplit;
      [done|].
    by apply (on_recv_unsubscribe _ _ _ verb). }
  right. split; [done|]. split; [done|]. split; [done|].
  destruct (PyStr.startswith data "PUBLISH ") eqn:Hp.
  - destruct (PyStr.split PyStr.space data) as [|verb [|c [|w rest]]]
      eqn:Hsplit.
    1-3: exists [], ""; split; [|done];
      apply on_recv_ignored; auto; right; rewrite Hsplit; simpl; lia.
    exists (elements (Registry.subscribers channels c)),
      (PyStr.join " " (w :: rest)).
    split; [|done]. by apply (on_recv_publish _ _ _ verb c w rest).
  - exists [], "". split; [|done]. apply on_recv_ignored; auto.
Qed.

(** ** SUBSCRIBE with any number of channels *)

Lemma dom_foldl_add_peer ident (channels : registry) (l : list string) :
  dom (foldl (add_peer ident) channels l) = dom channels ∪ list_to_set l.
Proof.
  revert channels. induction l as [|x l IH]; intros channels; simpl.
  - set_solver.
  - rewrite IH. unfold add_peer. rewrite dom_insert_L. set_solver.
Qed.

(** A SUBSCRIBE line adds the sender, and nobody else, under every channel
    it lists, and under no other channel; a listed channel without an entry
    gets one; nothing is sent. *)
Theorem subscribe_adds_sender_to_listed_channels
    (ident data : string) (channels : registry) :
  PyStr.utf8_valid data = true →
  PyStr.startswith data "SUBSCRIBE " = true →
  let o := Broker.on_recv ident data channels in
  let listed := tail (PyStr.split PyStr.space data) in
  result o = Ok tt ∧ trace o = []
  ∧ dom (final o) = dom channels ∪ list_to_set listed
  ∧ ∀ ch q, q ∈ Registry.subscribers (final o) ch
            ↔ q ∈ Registry.subscribers channels ch
              ∨ (q = ident ∧ ch ∈ listed).
Proof.
  intros Hv Hs o listed. subst o listed.
  rewrite on_recv_subscribe by done. cbn [final trace result].
  split; [done|]. split; [done|]. split; [apply dom_foldl_add_peer|].
  intros ch q. apply elem_of_subscribers_foldl.
Qed.

Lemma subscribe_adds_sender_to_listed_channels_witness :
  let channels : registry := <["a" := {["s2"]}]> ∅ in
  let o := Broker.on_recv "s1" "SUBSCRIBE a b" channels in
  let listed := tail (PyStr.split PyStr.space "SUBSCRIBE a b") in
  result o = Ok tt ∧ trace o = []
  ∧ dom (final o) = dom channels ∪ list_to_set listed
  ∧ ∀ ch q, q ∈ Registry.subscribers (final o) ch
            ↔ q ∈ Registry.subscribers channels ch
              ∨ (q = "s1" ∧ ch ∈ listed).
Proof.
  apply (subscribe_adds_sender_to_listed_channels "s1" "SUBSCRIBE a b");
    reflexivity.
Defined.

(** ** UNSUBSCRIBE *)

(** [UNSUBSCRIBE c] from a subscriber of [c] takes the sender out of the
    set of [c] and changes nothing else.  The channel keeps its entry, also
    when its set has become empty. *)
Theorem unsubscribe_removes_sender_only
    (ident c : string) (channels : registry) (peers : gset string) :
  channel_ok c = true → channels !! c = Some peers → ident ∈ peers →
  let o := Broker.on_recv ident ("UNSUBSCRIBE " +:+ c) channels in
  result o = Ok tt ∧ trace o = []
  ∧ final o !! c = Some (peers ∖ {[ident]})
  ∧ ∀ ch, ch ≠ c → final o !! ch = channels !! ch.
Proof.
  intros Hc E Hin o. subst o.
  rewrite (on_recv_unsubscribe_member _ _ _ _ Hc E Hin).
  cbn [final trace result]. split; [done|]. split; [done|]. split.
  - apply lookup_insert_eq.
  - intros ch Hne. by apply lookup_insert_ne.
Qed.

Lemma unsubscribe_removes_sender_only_witness :
  let channels : registry := <["a" := {["s1"]}]> ∅ in
  let o := Broker.on_recv "s1" ("UNSUBSCRIBE " +:+ "a") channels in
  result o = Ok tt ∧ trace o = []
  ∧ final o !! "a" = Some ({["s1"]} ∖ {["s1"]})
  ∧ ∀ ch, ch ≠ "a" → final o !! ch = channels !! ch.
Proof.
  apply (unsubscribe_removes_sender_only "s1" "a" (<["a" := {["s1"]}]> ∅)
           {["s1"]}).
  - reflexivity.
  - reflexivity.
  - apply (bool_decide_unpack _). vm_compute. exact I.
Defined.

(** An UNSUBSCRIBE line all of whose channels have no entry does nothing and
    raises nothing. *)
Theorem unsubscribe_unknown_channels_noop
    (ident data : string) (channels : registry) :
  PyStr.utf8_valid data = true →
  PyStr.startswith data "UNSUBSCRIBE " = true →
  forallb (λ ch, bool_decide (channels !! ch = None))
    (tail (PyStr.split PyStr.space data)) = true →
  Broker.on_recv ident data channels = Outcome channels [] (Ok tt).
Proof.
  intros Hv Hu Hall.
  pose proof (split_not_nil PyStr.space data) as Hne.
  destruct (PyStr.split PyStr.space data) as [|verb args] eqn:Hsplit; [done|].
  rewrite (on_recv_unsubscribe _ _ _ verb args Hv Hu Hsplit).
  apply unsubscribe_loop_unknown. simpl in Hall.
  apply Forall_forall. intros ch Hin.
  rewrite forallb_forall in Hall.
  apply list_elem_of_In, Hall in Hin. by apply bool_decide_eq_true in Hin.
Qed.

Lemma unsubscribe_unknown_channels_noop_witness :
  Broker.on_recv "s1" "UNSUBSCRIBE b c" (<["a" := {["s1"]}]> ∅)
  = Outcome (<["a" := {["s1"]}]> ∅) [] (Ok tt).
Proof.
  apply (unsubscribe_unknown_channels_noop "s1" "UNSUBSCRIBE b c"
           (<["a" := {["s1"]}]> ∅)); reflexivity.
Defined.

(** [UNSUBSCRIBE c] from a peer that is not in the set of an existing
    channel [c] raises [KeyError] for the peer and leaves the registry as
    it was. *)
Theorem unsubscribe_not_member_raises
    (ident c : string) (channels : registry) (peers : gset string) :
  channel_ok c = true → channels !! c = Some peers → ident ∉ peers →
  Broker.on_recv ident ("UNSUBSCRIBE " +:+ c) channels
  = Outcome channels [] (Raise (KeyError ident)).
Proof.
  intros Hc E Hn. rewrite on_recv_unsubscribe_command by done.
  by rewrite (bind_Raise _ _ _ _ _ _
                (unsubscribe_arg_missing _ _ _ _ _ E Hn)).
Qed.

Lemma unsubscribe_not_member_raises_witness :
  Broker.on_recv "s1" ("UNSUBSCRIBE " +:+ "a") (<["a" := {["s2"]}]> ∅)
  = Outcome (<["a" := {["s2"]}]> ∅) [] (Raise (KeyError "s1")).
Proof.
  apply (unsubscribe_not_member_raises "s1" "a" (<["a" := {["s2"]}]> ∅)
           {["s2"]}).
  - reflexivity.
  - reflexivity.
  - apply (bool_decide_unpack _). vm_compute. exact I.
Defined.

(** UNSUBSCRIBE is not idempotent: the first [UNSUBSCRIBE c] of a
    subscriber succeeds, the channel keeps its entry, and the same command
    again raises [KeyError]. *)
Theorem unsubscribe_twice_raises
    (ident c : string) (channels : registry) (peers : gset string) :
  channel_ok c = true → channels !! c = Some peers → ident ∈ peers →
  let once := Broker.on_recv ident ("UNSUBSCRIBE " +:+ c) channels in
  let twice := Broker.on_recv ident ("UNSUBSCRIBE " +:+ c) (final once) in
  result once = Ok tt
  ∧ twice = Outcome (final once) [] (Raise (KeyError ident)).
Proof.
  intros Hc E Hin once twice. subst once twice.
  rewrite (on_recv_unsubscribe_member _ _ _ _ Hc E Hin).
  cbn [final result]. split; [done|].
  rewrite on_recv_unsubscribe_command by done.
  assert (ident ∉ peers ∖ {[ident]}) as Hgone by set_solver.
  by rewrite (bind_Raise _ _ _ _ _ _
                (unsubscribe_arg_missing ident 0 c _ (peers ∖ {[ident]})
                   (lookup_insert_eq _ _ _) Hgone)).
Qed.

Lemma unsubscribe_twice_raises_witness :
  let channels : registry := <["a" := {["s1"]}]> ∅ in
  let once := Broker.on_recv "s1" ("UNSUBSCRIBE " +:+ "a") channels in
  let twice := Broker.on_recv "s1" ("UNSUBSCRIBE " +:+ "a") (final once) in
  result once = Ok tt
  ∧ twice = Outcome (final once) [] (Raise (KeyError "s1")).
Proof.
  apply (unsubscribe_twice_raises "s1" "a" (<["a" := {["s1"]}]> ∅)
           {["s1"]}).
  - reflexivity.
  - reflexivity.
  - apply (bool_decide_unpack _). vm_compute. exact I.
Defined.

(** ** What holds for every payload *)

(** Only a PUBLISH makes the broker send: for any other payload, decodable
    or not, the trace is empty.  Whatever is sent is a message with a
    time-to-live of 60, and a payload that starts with [PUBLISH ] leaves the
    registry as it was. *)
Theorem on_recv_sends_only_for_publish
    (ident data : string) (channels : registry) :
  let o := Broker.on_recv ident data channels in
  (PyStr.startswith data "PUBLISH " = false → trace o = [])
  ∧ Forall (λ e, ∃ peer text, e = Send peer text 60) (trace o)
  ∧ (PyStr.startswith data "PUBLISH " = true → final o = channels).
Proof.
  intros o.
  destruct (on_recv_cases ident data channels)
    as [[Hv Ho]|[(Hv & Hs & Ho)|[(Hv & Hs & Hu & Ho)|(Hv & Hs & Hu & Ho)]]];
    fold o in Ho.
  - rewrite Ho. simpl. by repeat split.
  - rewrite Ho. simpl. repeat split; [done|].
    intros Hp. apply startswith_publish_only in Hp as [? ?]. congruence.
  - destruct (unsubscribe_loop ident 0
                (tail (PyStr.split PyStr.space data)) channels) as [Ht _].
    rewrite Ho, Ht. repeat split; [done|].
    intros Hp. apply startswith_publish_only in Hp as [? ?]. congruence.
  - destruct Ho as (l & text & Ho & Hl). rewrite Ho. simpl. repeat split.
    + intros Hp. by rewrite (Hl Hp).
    + apply Forall_fmap, Forall_forall. intros peer _. simpl. eauto.
Qed.

Lemma on_recv_sends_only_for_publish_witness :
  let channels : registry := <["a" := {["s1"]}]> ∅ in
  let o := Broker.on_recv "s2" "SUBSCRIBE a" channels in
  (PyStr.startswith "SUBSCRIBE a" "PUBLISH " = false → trace o = [])
  ∧ Forall (λ e, ∃ peer text, e = Send peer text 60) (trace o)
  ∧ (PyStr.startswith "SUBSCRIBE a" "PUBLISH " = true → final o = channels).
Proof.
  apply (on_recv_sends_only_for_publish "s2" "SUBSCRIBE a"
           (<["a" := {["s1"]}]> ∅)).
Defined.

(** No payload makes the broker drop a channel: whatever arrives, and
    whether the handler returns or raises, every channel that had an entry
    still has one. *)
Theorem on_recv_keeps_channel_entries
    (ident data : string) (channels : registry) :
  dom channels ⊆ dom (final (Broker.on_recv ident data channels)).
Proof.
  destruct (on_recv_cases ident data channels)
    as [[Hv Ho]|[(Hv & Hs & Ho)|[(Hv & Hs & Hu & Ho)|(Hv & Hs & Hu & Ho)]]].
  - by rewrite Ho.
  - rewrite Ho. simpl. rewrite dom_foldl_add_peer. set_solver.
  - destruct (unsubscribe_loop ident 0
                (tail (PyStr.split PyStr.space data)) channels)
      as [_ (Hd & _)].
    rewrite Ho, Hd. done.
  - destruct Ho as (l & text & Ho & _). by rewrite Ho.
Qed.

(** A message changes only its sender's subscriptions: for every other
    peer, membership in every channel is the same after the handler as
    before, whatever the payload and whether the handler returns or
    raises. *)
Theorem on_recv_touches_only_sender
    (ident data : string) (channels : registry) (q ch : string) :
  q ≠ ident →
  q ∈ Registry.subscribers (final (Broker.on_recv ident data channels)) ch
  ↔ q ∈ Registry.subscribers channels ch.
Proof.
  intros Hne.
  destruct (on_recv_cases ident data channels)
    as [[Hv Ho]|[(Hv & Hs & Ho)|[(Hv & Hs & Hu & Ho)|(Hv & Hs & Hu & Ho)]]].
  - by rewrite Ho.
  - rewrite Ho. simpl. rewrite elem_of_subscribers_foldl. naive_solver.
  - destruct (unsubscribe_loop ident 0
                (tail (PyStr.split PyStr.space data)) channels)
      as [_ (_ & Hs' & Hk)].
    rewrite Ho. split; [apply Hs'|by apply Hk].
  - destruct Ho as (l & text & Ho & _). by rewrite Ho.
Qed.

Lemma on_recv_touches_only_sender_witness :
  "s2" ∈ Registry.subscribers
           (final (Broker.on_recv "s1" "UNSUBSCRIBE a"
                     (<["a" := {["s1"]} ∪ {["s2"]}]> ∅))) "a"
  ↔ "s2" ∈ Registry.subscribers (<["a" := {["s1"]} ∪ {["s2"]}]> ∅) "a".
Proof.
  apply (on_recv_touches_only_sender "s1" "UNSUBSCRIBE a"
           (<["a" := {["s1"]} ∪ {["s2"]}]> ∅) "s2" "a").
  discriminate.
Defined.

(** One step of provenance: a peer that is under a channel after the
    handler was there before, or is the sender of a SUBSCRIBE that lists
    the channel. *)
Lemma on_recv_membership_step ident data (channels : registry) q ch :
  q ∈ Registry.subscribers (final (Broker.on_recv ident data channels)) ch →
  q ∈ Registry.subscribers channels ch
  ∨ (q = ident ∧ PyStr.startswith data "SUBSCRIBE " = true
     ∧ ch ∈ tail (PyStr.split PyStr.space data)).
Proof.
  destruct (on_recv_cases ident data channels)
    as [[Hv Ho]|[(Hv & Hs & Ho)|[(Hv & Hs & Hu & Ho)|(Hv & Hs & Hu & Ho)]]].
  - rewrite Ho. by left.
  - rewrite Ho. simpl. rewrite elem_of_subscribers_foldl. naive_solver.
  - destruct (unsubscribe_loop ident 0
                (tail (PyStr.split PyStr.space data)) channels)
      as [_ (_ & Hs' & _)].
    rewrite Ho. intros H. left. by apply Hs'.
  - destruct Ho as (l & text & Ho & _). rewrite Ho. by left.
Qed.

(** ** Runs of a broker *)

Lemma dispatch_constructed host port identity w0 b e w :
  result (Broker.__init__ host port identity w0) = Ok b →
  Broker.dispatch b e w
  = match e with
    | Broker.MessageRecv ident data =>
        let o := Broker.on_recv ident data (Broker.channels w) in
        Outcome (Broker.Process (final o)) (trace o) (result o)
    | _ => Outcome w [] (Ok tt)
    end.
Proof.
  intros Hb. destruct e as [ident data|ident data|ident|ident].
  - by apply (dispatch_recv host port identity w0).
  - revert Hb. rewrite init_callbacks. simpl. intros [= <-].
    unfold Broker.dispatch, Broker.self_channels, zoom. simpl.
    by destruct w.
  - revert Hb. rewrite init_callbacks. simpl. intros [= <-].
    unfold Broker.dispatch, Broker.self_channels, zoom. simpl.
    by destruct w.
  - by apply (dispatch_disconnect_noop host port identity w0).
Qed.

Lemma session_unfold host port identity events w :
  broker_session host port identity events w
  = Broker.handle_events
      {| Broker.broker_identity := identity;
         Broker.listeners := [(host, port)];
         Broker.on_message_recv := [Broker.on_recv];
         Broker.on_message_drop := [Broker.on_drop];
         Broker.on_connect := [];
         Broker.on_disconnect := [] |} events w.
Proof.
  unfold broker_session.
  by rewrite (bind_silent _ _ _ _ _ (init_callbacks host port identity w)).
Qed.

(** Dropped-message, connect and disconnect notifications play no part in
    a run: taking them out of the sequence of events changes neither the
    final registry, nor what is sent, nor the result. *)
Theorem session_ignores_notifications
    (host : string) (port : Z) (identity : string)
    (events : list Broker.event) (w : Broker.process) :
  broker_session host port identity events w
  = broker_session host port identity
      (filter (λ e, is_message_recv e = true) events) w.
Proof.
  rewrite !session_unfold. set (b := Broker.Instance _ _ _ _ _ _).
  assert (Hb : result (Broker.__init__ host port identity w) = Ok b) by done.
  revert w Hb. induction events as [|e events IH]; intros w Hb; [done|].
  destruct e as [ident data|ident data|ident|ident].
  - rewrite filter_cons_True by done.
    unfold Broker.handle_events in *. cbn [for_each]. unfold bind.
    destruct (result (Broker.dispatch b _ w)); [|done].
    by rewrite IH.
  - rewrite filter_cons_False by done.
    unfold Broker.handle_events in *. cbn [for_each].
    rewrite (bind_silent _ _ w w tt)
      by exact (dispatch_constructed _ _ _ _ _ (Broker.MessageDrop ident data) _ Hb).
    by apply IH.
  - rewrite filter_cons_False by done.
    unfold Broker.handle_events in *. cbn [for_each].
    rewrite (bind_silent _ _ w w tt)
      by exact (dispatch_constructed _ _ _ _ _ (Broker.PeerConnected ident) _ Hb).
    by apply IH.
  - rewrite filter_cons_False by done.
    unfold Broker.handle_events in *. cbn [for_each].
    rewrite (bind_silent _ _ w w tt)
      by exact (dispatch_constructed _ _ _ _ _ (Broker.PeerDisconnected ident) _ Hb).
    by apply IH.
Qed.

(** Nobody is subscribed on another's word: a peer that the registry has
    under a channel at the end of a run was there when the run started, or
    the run contains a SUBSCRIBE line from that very peer that lists the
    channel. *)
Theorem session_membership_provenance
    (host : string) (port : Z) (identity : string)
    (events : list Broker.event) (w : Broker.process) (q ch : string) :
  q ∈ Registry.subscribers
        (Broker.channels (final (broker_session host port identity events w)))
        ch →
  q ∈ Registry.subscribers (Broker.channels w) ch
  ∨ ∃ data, Broker.MessageRecv q data ∈ events
            ∧ PyStr.startswith data "SUBSCRIBE " = true
            ∧ ch ∈ tail (PyStr.split PyStr.space data).
Proof.
  rewrite session_unfold. set (b := Broker.Instance _ _ _ _ _ _).
  assert (Hb : result (Broker.__init__ host port identity w) = Ok b) by done.
  revert w Hb. induction events as [|e events IH]; intros w Hb; [by left|].
  unfold Broker.handle_events in *. cbn [for_each].
  assert (Hstep : ∀ s, q ∈ Registry.subscribers
                         (Broker.channels (final (Broker.dispatch b e w))) s →
            q ∈ Registry.subscribers (Broker.channels w) s
            ∨ ∃ data, e = Broker.MessageRecv q data
                      ∧ PyStr.startswith data "SUBSCRIBE " = true
                      ∧ s ∈ tail (PyStr.split PyStr.space data)).
  { intros s. rewrite (dispatch_constructed _ _ _ _ _ e w Hb).
    destruct e as [ident data|ident data|ident|ident]; try by left.
    simpl. intros [H|(-> & Hs & Hin)]%on_recv_membership_step; [by left|].
    right. by exists data. }
  unfold bind.
  destruct (Broker.dispatch b e w) as [w1 t1 [[]|err]] eqn:E; simpl in *.
  - intros [H|(data & Hin & Hs & Hch)]%IH; [|right; exists data; set_solver|done].
    apply Hstep in H as [H|(data & -> & Hs & Hch)]; [by left|].
    right. exists data. set_solver.
  - intros H. apply Hstep in H as [H|(data & -> & Hs & Hch)]; [by left|].
    right. exists data. set_solver.
Qed.

Lemma session_membership_provenance_witness :
  "s1" ∈ Registry.subscribers (Broker.channels Broker.class_defined) "a"
  ∨ ∃ data, Broker.MessageRecv "s1" data
              ∈ [Broker.MessageRecv "s1" "SUBSCRIBE a";
                 Broker.PeerDisconnected "s1"]
            ∧ PyStr.startswith data "SUBSCRIBE " = true
            ∧ "a" ∈ tail (PyStr.split PyStr.space data).
Proof.
  apply (session_membership_provenance "localhost" 4000 "broker"
           [Broker.MessageRecv "s1" "SUBSCRIBE a";
            Broker.PeerDisconnected "s1"] Broker.class_defined "s1" "a").
  apply (bool_decide_unpack _). vm_compute. exact I.
Defined.

(** A payload that is not well-formed UTF-8 makes the handler raise
    [UnicodeDecodeError] out of the callback; the registry is untouched and
    nothing is sent. *)
Theorem session_undecodable_payload_raises
    (host : string) (port : Z) (identity ident data : string)
    (w : Broker.process) :
  PyStr.utf8_valid data = false →
  broker_session host port identity [Broker.MessageRecv ident data] w
  = Outcome w [] (Raise UnicodeDecodeError).
Proof.
  intros Hv. rewrite session_unfold. set (b := Broker.Instance _ _ _ _ _ _).
  unfold Broker.handle_events. cbn [for_each].
  apply bind_Raise.
  rewrite (dispatch_constructed host port identity w b) by done.
  rewrite (on_recv_undecodable _ _ _ Hv). by destruct w.
Qed.

Lemma session_undecodable_payload_raises_witness :
  broker_session "localhost" 4000 "broker"
    [Broker.MessageRecv "s1" (String (ascii_of_N 255) "")]
    Broker.class_defined
  = Outcome Broker.class_defined [] (Raise UnicodeDecodeError).
Proof.
  apply (session_undecodable_payload_raises "localhost" 4000 "broker" "s1"
           (String (ascii_of_N 255) "") Broker.class_defined).
  reflexivity.
Defined.

(** ** Channel names with a space *)

Lemma string_app_assoc (a b c : string) : (a +:+ b) +:+ c = a +:+ b +:+ c.
Proof.
  induction a as [|x a IH]; [done|]. rewrite !app_cons. by rewrite IH.
Qed.

Lemma publish_spec pub channel message :
  PyStr.utf8_valid channel = true → PyStr.utf8_valid message = true →
  Publisher.publish pub channel message tt
  = Outcome tt
      [Send (Publisher.broker_identity pub)
         ("PUBLISH " +:+ channel +:+ " " +:+ message) 60]
      (Ok tt).
Proof.
  intros Hc Hm. unfold Publisher.publish.
  by rewrite (encode_send _ _ _ (publish_command_valid _ _ Hc Hm)).
Qed.

Lemma utf8_valid_spaced a b :
  PyStr.utf8_valid a = true → PyStr.utf8_valid b = true →
  PyStr.utf8_valid (a +:+ " " +:+ b) = true.
Proof.
  intros Ha Hb. rewrite (utf8_valid_app a) by done.
  by rewrite (utf8_valid_app " ").
Qed.

(** A channel name with a space is cut at the space by the broker: a
    message published on [c1 c2] goes to the subscribers of [c1], and what
    follows the space, [c2], arrives as the first word of the payload. *)
Theorem publish_channel_with_space_misrouted
    (pub : Publisher.instance) (c1 c2 m : string) (channels : registry) :
  channel_ok c1 = true →
  PyStr.utf8_valid c2 = true → PyStr.utf8_valid m = true →
  let sent := trace (Publisher.publish pub (c1 +:+ " " +:+ c2) m tt) in
  broker_receives (Publisher.my_identity pub) (Publisher.broker_identity pub)
    sent channels
  = Outcome channels
      ((λ peer, Send peer (c2 +:+ " " +:+ m) 60)
         <$> elements (Registry.subscribers channels c1))
      (Ok tt).
Proof.
  intros Hc1 Hc2 Hm sent. subst sent.
  destruct (channel_ok_valid _ Hc1) as [Hv1 _].
  rewrite publish_spec by (by try apply utf8_valid_spaced).
  unfold broker_receives.
  cbn [trace sent_to]. rewrite bool_decide_eq_true_2 by done.
  cbn [for_each]. rewrite bind_ret_tt.
  replace ("PUBLISH " +:+ (c1 +:+ " " +:+ c2) +:+ " " +:+ m)
    with ("PUBLISH " +:+ c1 +:+ " " +:+ (c2 +:+ " " +:+ m))
    by (by rewrite !string_app_assoc).
  apply on_recv_publish_command; [done|].
  rewrite (utf8_valid_app c2) by done. by rewrite (utf8_valid_app " ").
Qed.

Lemma publish_channel_with_space_misrouted_witness :
  let pub := Publisher.Instance "broker" "publisher" in
  let channels : registry := <["news" := {["s1"]}]> ∅ in
  let sent := trace (Publisher.publish pub ("news" +:+ " " +:+ "uk") "hi" tt) in
  broker_receives "publisher" "broker" sent channels
  = Outcome channels
      ((λ peer, Send peer ("uk" +:+ " " +:+ "hi") 60)
         <$> elements (Registry.subscribers channels "news"))
      (Ok tt).
Proof.
  apply (publish_channel_with_space_misrouted
           (Publisher.Instance "broker" "publisher") "news" "uk" "hi"
           (<["news" := {["s1"]}]> ∅)); reflexivity.
Defined.

(** The same on the subscriber's side: [subscribe("c1 c2")] records the
    one name [c1 c2] in the desired set, but the broker takes the command
    for two channels and puts the subscriber under [c1] and under [c2]. *)
Theorem subscribe_channel_with_space_splits
    (self : Subscriber.instance) (c1 c2 : string)
    (desired : gset string) (channels : registry) :
  channel_ok c1 = true → channel_ok c2 = true →
  let o := Subscriber.subscribe self (c1 +:+ " " +:+ c2) desired in
  let handled := broker_receives (Subscriber.my_identity self)
                   (Subscriber.broker_identity self) (trace o) channels in
  final o = desired ∪ {[c1 +:+ " " +:+ c2]}
  ∧ handled
    = Outcome (add_peer (Subscriber.my_identity self)
                 (add_peer (Subscriber.my_identity self) channels c1) c2)
        [] (Ok tt).
Proof.
  intros Hc1 Hc2 o handled. subst o handled.
  destruct (channel_ok_valid _ Hc1) as [Hv1 Hs1].
  destruct (channel_ok_valid _ Hc2) as [Hv2 Hs2].
  rewrite subscribe_spec by (by apply utf8_valid_spaced).
  cbn [final trace]. split; [done|].
  unfold broker_receives, resubscribe_effects. cbn [sent_to].
  rewrite bool_decide_eq_true_2 by done. cbn [for_each].
  rewrite bind_ret_tt.
  rewrite on_recv_subscribe.
  - change ("SUBSCRIBE " +:+ c1 +:+ " " +:+ c2)
      with ("SUBSCRIBE" +:+ String PyStr.space (c1 +:+ String PyStr.space c2)).
    by rewrite !split_app_sep, split_no_sep.
  - rewrite (utf8_valid_app "SUBSCRIBE ") by done.
    rewrite (utf8_valid_app c1) by done. by rewrite (utf8_valid_app " ").
  - apply startswith_app.
Qed.

Lemma subscribe_channel_with_space_splits_witness :
  let self := Subscriber.Instance "broker" "s1" in
  let o := Subscriber.subscribe self ("news" +:+ " " +:+ "uk") ∅ in
  let handled := broker_receives "s1" "broker" (trace o) ∅ in
  final o = ∅ ∪ {["news" +:+ " " +:+ "uk"]}
  ∧ handled = Outcome (add_peer "s1" (add_peer "s1" ∅ "news") "uk") [] (Ok tt).
Proof.
  apply (subscribe_channel_with_space_splits
           (Subscriber.Instance "broker" "s1") "news" "uk" ∅ ∅); reflexivity.
Defined.

(** ** The subscriber's own bookkeeping *)

Lemma subscribe_unsubscribe_outcome
    (self : Subscriber.instance) (c : string) (desired : gset string) :
  PyStr.utf8_valid c = true →
  (Subscriber.subscribe self c;; Subscriber.unsubscribe self c) desired
  = Outcome ((desired ∪ {[c]}) ∖ {[c]})
      (resubscribe_effects (Subscriber.broker_identity self) c
       ++ [Send (Subscriber.broker_identity self) ("UNSUBSCRIBE " +:+ c) 60])
      (Ok tt).
Proof.
  intros Hv. erewrite bind_Ok by (by apply subscribe_spec).
  rewrite unsubscribe_sends by done.
  by rewrite bool_decide_eq_true_2 by set_solver.
Qed.

(** For a channel that is text that can be encoded, [subscribe] followed
    by [unsubscribe] of that channel does not raise, sends the two commands
    in that order, and leaves the desired set without the channel, whether
    or not it was there before. *)
Theorem subscriber_subscribe_then_unsubscribe
    (self : Subscriber.instance) (c : string) (desired : gset string) :
  PyStr.utf8_valid c = true →
  let o := (Subscriber.subscribe self c;; Subscriber.unsubscribe self c)
             desired in
  result o = Ok tt ∧ final o = desired ∖ {[c]}
  ∧ sent_to (Subscriber.broker_identity self) (trace o)
    = ["SUBSCRIBE " +:+ c; "UNSUBSCRIBE " +:+ c].
Proof.
  intros Hv o. subst o. rewrite subscribe_unsubscribe_outcome by done.
  cbn [final trace result app resubscribe_effects sent_to].
  rewrite !bool_decide_eq_true_2 by done.
  split; [done|]. split; [set_solver|done].
Qed.

Lemma subscriber_subscribe_then_unsubscribe_witness :
  let self := Subscriber.Instance "broker" "s1" in
  let o := (Subscriber.subscribe self "a";; Subscriber.unsubscribe self "a")
             ({["a"]} ∪ {["b"]}) in
  result o = Ok tt ∧ final o = ({["a"]} ∪ {["b"]}) ∖ {["a"]}
  ∧ sent_to "broker" (trace o)
    = ["SUBSCRIBE " +:+ "a"; "UNSUBSCRIBE " +:+ "a"].
Proof.
  apply (subscriber_subscribe_then_unsubscribe
           (Subscriber.Instance "broker" "s1") "a" ({["a"]} ∪ {["b"]})).
  reflexivity.
Defined.

(** For a channel that is text that can be encoded, subscribing to it
    twice keeps one element in the desired set but hands the transport the
    command, and prints the line, both times. *)
Theorem subscriber_subscribe_twice
    (self : Subscriber.instance) (c : string) (desired : gset string) :
  PyStr.utf8_valid c = true →
  let o := (Subscriber.subscribe self c;; Subscriber.subscribe self c)
             desired in
  result o = Ok tt ∧ final o = desired ∪ {[c]}
  ∧ sent_to (Subscriber.broker_identity self) (trace o)
    = ["SUBSCRIBE " +:+ c; "SUBSCRIBE " +:+ c]
  ∧ size (final o) = size (final (Subscriber.subscribe self c desired)).
Proof.
  intros Hv o. subst o.
  erewrite bind_Ok by (by apply subscribe_spec).
  rewrite !subscribe_spec by done.
  cbn [final trace result app resubscribe_effects sent_to].
  rewrite !bool_decide_eq_true_2 by done.
  replace (desired ∪ {[c]} ∪ {[c]}) with (desired ∪ {[c]}) by set_solver.
  done.
Qed.

Lemma subscriber_subscribe_twice_witness :
  let self := Subscriber.Instance "broker" "s1" in
  let o := (Subscriber.subscribe self "a";; Subscriber.subscribe self "a")
             ∅ in
  result o = Ok tt ∧ final o = ∅ ∪ {["a"]}
  ∧ sent_to "broker" (trace o) = ["SUBSCRIBE " +:+ "a"; "SUBSCRIBE " +:+ "a"]
  ∧ size (final o) = size (final (Subscriber.subscribe self "a" ∅)).
Proof.
  apply (subscriber_subscribe_twice (Subscriber.Instance "broker" "s1")
           "a" ∅).
  reflexivity.
Defined.

(** Text that has no UTF-8 encoding stops each of the three client calls
    before anything is handed to the transport: [subscribe] and
    [unsubscribe] of such a channel, and [publish] on such a channel or of
    such a message, raise [UnicodeEncodeError], send nothing and leave the
    desired set as it was. *)
Theorem client_unencodable_text_raises
    (sub : Subscriber.instance) (pub : Publisher.instance)
    (c m : string) (desired : gset string) :
  PyStr.utf8_valid c = false →
  Subscriber.subscribe sub c desired
  = Outcome desired [] (Raise UnicodeEncodeError)
  ∧ Subscriber.unsubscribe sub c desired
    = Outcome desired [] (Raise UnicodeEncodeError)
  ∧ Publisher.publish pub c m tt = Outcome tt [] (Raise UnicodeEncodeError)
  ∧ Publisher.publish pub m c tt = Outcome tt [] (Raise UnicodeEncodeError).
Proof.
  intros Hc.
  assert (∀ a, PyStr.utf8_valid a = true → PyStr.utf8_valid (a +:+ c) = false)
    as Hpre by (by intros a Ha; rewrite utf8_valid_app).
  assert (PyStr.utf8_valid ("PUBLISH " +:+ c +:+ " " +:+ m) = false) as Hcm.
  { rewrite (utf8_valid_app "PUBLISH ") by done.
    destruct (PyStr.utf8_valid (c +:+ " " +:+ m)) eqn:E; [|done].
    apply (utf8_valid_sep_inv c m) in E as [E _]. congruence. }
  assert (PyStr.utf8_valid ("PUBLISH " +:+ m +:+ " " +:+ c) = false) as Hmc.
  { rewrite (utf8_valid_app "PUBLISH ") by done.
    destruct (PyStr.utf8_valid (m +:+ " " +:+ c)) eqn:E; [|done].
    apply (utf8_valid_sep_inv m c) in E as [_ E]. congruence. }
  repeat split.
  - unfold Subscriber.subscribe. apply bind_Raise, encode_utf8_invalid.
    by apply Hpre.
  - unfold Subscriber.unsubscribe. apply bind_Raise, encode_utf8_invalid.
    by apply Hpre.
  - unfold Publisher.publish. by apply bind_Raise, encode_utf8_invalid.
  - unfold Publisher.publish. by apply bind_Raise, encode_utf8_invalid.
Qed.

Lemma client_unencodable_text_raises_witness :
  let sub := Subscriber.Instance "broker" "s1" in
  let pub := Publisher.Instance "broker" "publisher" in
  let c := String (ascii_of_N 255) "" in
  Subscriber.subscribe sub c {["a"]}
  = Outcome {["a"]} [] (Raise UnicodeEncodeError)
  ∧ Subscriber.unsubscribe sub c {["a"]}
    = Outcome {["a"]} [] (Raise UnicodeEncodeError)
  ∧ Publisher.publish pub c "hi" tt
    = Outcome tt [] (Raise UnicodeEncodeError)
  ∧ Publisher.publish pub "hi" c tt
    = Outcome tt [] (Raise UnicodeEncodeError).
Proof.
  apply (client_unencodable_text_raises (Subscriber.Instance "broker" "s1")
           (Publisher.Instance "broker" "publisher")
           (String (ascii_of_N 255) "") "hi" {["a"]}).
  reflexivity.
Defined.

(** ** Subscriber, publisher and broker together *)

Lemma broker_receives_one sender broker data (channels : registry) :
  broker_receives sender broker [Send broker data 60] channels
  = Broker.on_recv sender data channels.
Proof.
  unfold broker_receives. cbn [sent_to].
  rewrite bool_decide_eq_true_2 by done. cbn [for_each].
  apply bind_ret_tt.
Qed.

Lemma broker_receives_subscribe self c desired (channels : registry) :
  channel_ok c = true →
  broker_receives (Subscriber.my_identity self)
    (Subscriber.broker_identity self)
    (trace (Subscriber.subscribe self c desired)) channels
  = Outcome (add_peer (Subscriber.my_identity self) channels c) [] (Ok tt).
Proof.
  intros Hc. destruct (channel_ok_valid _ Hc) as [Hv _].
  rewrite subscribe_spec by done.
  unfold broker_receives, resubscribe_effects. cbn [trace sent_to].
  rewrite bool_decide_eq_true_2 by done. cbn [for_each].
  rewrite bind_ret_tt. by apply on_recv_subscribe_command.
Qed.

Lemma broker_receives_publish pub c m (channels : registry) :
  channel_ok c = true → PyStr.utf8_valid m = true →
  broker_receives (Publisher.my_identity pub) (Publisher.broker_identity pub)
    (trace (Publisher.publish pub c m tt)) channels
  = Outcome channels
      ((λ peer, Send peer m 60)
         <$> elements (Registry.subscribers channels c))
      (Ok tt).
Proof.
  intros Hc Hm. destruct (channel_ok_valid _ Hc) as [Hv _].
  rewrite publish_spec by done. cbn [trace].
  rewrite broker_receives_one. by apply on_recv_publish_command.
Qed.

(** The round trip of the tests, for every channel and message: when the
    broker has handled what [Subscriber.subscribe(c)] sent and then what
    [Publisher.publish(c, m)] sent, it has handed the transport exactly
    one message for the subscriber, and its payload is [m]. *)
Theorem subscribe_publish_delivers_once
    (sub : Subscriber.instance) (pub : Publisher.instance)
    (c m : string) (desired : gset string) (channels : registry) :
  channel_ok c = true → PyStr.utf8_valid m = true →
  let me := Subscriber.my_identity sub in
  let o :=
    (broker_receives me (Subscriber.broker_identity sub)
       (trace (Subscriber.subscribe sub c desired));;
     broker_receives (Publisher.my_identity pub)
       (Publisher.broker_identity pub)
       (trace (Publisher.publish pub c m tt))) channels in
  result o = Ok tt ∧ sent_to me (trace o) = [m].
Proof.
  intros Hc Hm me o. subst me o.
  rewrite (bind_silent _ _ _ _ _ (broker_receives_subscribe _ _ _ _ Hc)).
  rewrite broker_receives_publish by done. cbn [result trace].
  split; [done|].
  apply sent_to_send_once; [apply NoDup_elements|].
  apply elem_of_elements, elem_of_subscribers_add_peer. by right.
Qed.

Lemma subscribe_publish_delivers_once_witness :
  let sub := Subscriber.Instance "broker" "s1" in
  let pub := Publisher.Instance "broker" "publisher" in
  let o :=
    (broker_receives "s1" "broker" (trace (Subscriber.subscribe sub "a" ∅));;
     broker_receives "publisher" "broker"
       (trace (Publisher.publish pub "a" "v1" tt))) (∅ : registry) in
  result o = Ok tt ∧ sent_to "s1" (trace o) = ["v1"].
Proof.
  apply (subscribe_publish_delivers_once (Subscriber.Instance "broker" "s1")
           (Publisher.Instance "broker" "publisher") "a" "v1" ∅ ∅);
    reflexivity.
Defined.

(** And after the unsubscription: when the broker has handled the
    SUBSCRIBE and the UNSUBSCRIBE that [subscribe(c)] and [unsubscribe(c)]
    sent, a message published on [c] is not sent to the subscriber, whatever
    the registry held before; the broker raises nothing on the way. *)
Theorem unsubscribed_peer_gets_nothing
    (sub : Subscriber.instance) (pub : Publisher.instance)
    (c m : string) (desired : gset string) (channels : registry) :
  channel_ok c = true → PyStr.utf8_valid m = true →
  let me := Subscriber.my_identity sub in
  let o :=
    (broker_receives me (Subscriber.broker_identity sub)
       (trace ((Subscriber.subscribe sub c;; Subscriber.unsubscribe sub c)
                 desired));;
     broker_receives (Publisher.my_identity pub)
       (Publisher.broker_identity pub)
       (trace (Publisher.publish pub c m tt))) channels in
  result o = Ok tt ∧ sent_to me (trace o) = []
  ∧ me ∉ Registry.subscribers (final o) c.
Proof.
  intros Hc Hm me o. subst o.
  destruct (channel_ok_valid _ Hc) as [Hv _].
  rewrite subscribe_unsubscribe_outcome by done. cbn [trace].
  assert (broker_receives me (Subscriber.broker_identity sub)
            (resubscribe_effects (Subscriber.broker_identity sub) c
             ++ [Send (Subscriber.broker_identity sub)
                   ("UNSUBSCRIBE " +:+ c) 60]) channels
          = Outcome (<[c := (Registry.subscribers channels c ∪ {[me]})
                            ∖ {[me]}]> (add_peer me channels c)) [] (Ok tt))
    as Hboth.
  { unfold broker_receives, resubscribe_effects. cbn [app sent_to].
    rewrite !bool_decide_eq_true_2 by done. cbn [for_each].
    rewrite (bind_silent _ _ _ _ _ (on_recv_subscribe_command me _ _ Hc)).
    rewrite bind_ret_tt.
    apply on_recv_unsubscribe_member; [done| |set_solver].
    unfold add_peer. apply lookup_insert_eq. }
  rewrite (bind_silent _ _ _ _ _ Hboth).
  rewrite broker_receives_publish by done. cbn [result trace final].
  assert (me ∉ Registry.subscribers
                 (<[c := (Registry.subscribers channels c ∪ {[me]})
                         ∖ {[me]}]> (add_peer me channels c)) c) as Hgone.
  { rewrite subscribers_insert, decide_True by done. set_solver. }
  split; [done|]. split; [|done].
  apply sent_to_send_other. by rewrite elem_of_elements.
Qed.

Lemma unsubscribed_peer_gets_nothing_witness :
  let sub := Subscriber.Instance "broker" "s1" in
  let pub := Publisher.Instance "broker" "publisher" in
  let channels : registry := <["a" := {["s1"]} ∪ {["s2"]}]> ∅ in
  let o :=
    (broker_receives "s1" "broker"
       (trace ((Subscriber.subscribe sub "a";; Subscriber.unsubscribe sub "a")
                 ∅));;
     broker_receives "publisher" "broker"
       (trace (Publisher.publish pub "a" "v2" tt))) channels in
  result o = Ok tt ∧ sent_to "s1" (trace o) = []
  ∧ "s1" ∉ Registry.subscribers (final o) "a".
Proof.
  apply (unsubscribed_peer_gets_nothing (Subscriber.Instance "broker" "s1")
           (Publisher.Instance "broker" "publisher") "a" "v2" ∅
           (<["a" := {["s1"]} ∪ {["s2"]}]> ∅)); reflexivity.
Defined.

(** The subscriber and the broker stay in step.  If the broker has the
    subscriber under exactly its desired channels, then after
    [subscribe(c)], and after [unsubscribe(c)] of a desired channel, with
    the command handled by the broker, it has it under exactly the new
    desired set, and neither side has raised. *)
Theorem in_sync_preserved
    (self : Subscriber.instance) (c : string)
    (desired : gset string) (channels : registry) :
  channel_ok c = true →
  in_sync (Subscriber.my_identity self) desired channels →
  let me := Subscriber.my_identity self in
  let broker := Subscriber.broker_identity self in
  let s := Subscriber.subscribe self c desired in
  let u := Subscriber.unsubscribe self c desired in
  let after_s := broker_receives me broker (trace s) channels in
  let after_u := broker_receives me broker (trace u) channels in
  (result s = Ok tt ∧ result after_s = Ok tt
   ∧ in_sync me (final s) (final after_s))
  ∧ (c ∈ desired →
     result u = Ok tt ∧ result after_u = Ok tt
     ∧ in_sync me (final u) (final after_u)).
Proof.
  intros Hc Hsync me broker s u after_s after_u.
  subst s u after_s after_u. subst me broker.
  destruct (channel_ok_valid _ Hc) as [Hv _]. split.
  - rewrite broker_receives_subscribe by done. rewrite subscribe_spec by done.
    cbn [final result]. split; [done|]. split; [done|].
    intros ch. rewrite elem_of_subscribers_add_peer, (Hsync ch). set_solver.
  - intros Hin.
    assert (Subscriber.unsubscribe self c desired
            = Outcome (desired ∖ {[c]})
                [Send (Subscriber.broker_identity self)
                   ("UNSUBSCRIBE " +:+ c) 60] (Ok tt)) as Hu.
    { rewrite unsubscribe_sends by done.
      by rewrite bool_decide_eq_true_2. }
    rewrite Hu. cbn [final trace result]. rewrite broker_receives_one.
    pose proof (proj2 (Hsync c) Hin) as Hme.
    unfold Registry.subscribers in Hme.
    destruct (channels !! c) as [peers|] eqn:E; [|set_solver].
    simpl in Hme.
    rewrite (on_recv_unsubscribe_member _ _ _ _ Hc E Hme).
    cbn [final result]. split; [done|]. split; [done|].
    intros ch. rewrite subscribers_insert. case_decide as Hch.
    + subst ch. set_solver.
    + rewrite (Hsync ch). set_solver.
Qed.

Lemma in_sync_preserved_witness :
  let self := Subscriber.Instance "broker" "s1" in
  let desired : gset string := {["a"]} in
  let channels : registry := <["a" := {["s1"]}]> ∅ in
  let s := Subscriber.subscribe self "a" desired in
  let u := Subscriber.unsubscribe self "a" desired in
  let after_s := broker_receives "s1" "broker" (trace s) channels in
  let after_u := broker_receives "s1" "broker" (trace u) channels in
  (result s = Ok tt ∧ result after_s = Ok tt
   ∧ in_sync "s1" (final s) (final after_s))
  ∧ ("a" ∈ desired →
     result u = Ok tt ∧ result after_u = Ok tt
     ∧ in_sync "s1" (final u) (final after_u)).
Proof.
  apply (in_sync_preserved (Subscriber.Instance "broker" "s1") "a"
           {["a"]} (<["a" := {["s1"]}]> ∅)).
  - reflexivity.
  - intros ch. unfold Registry.subscribers. rewrite lookup_insert.
    case_decide as Hch.
    + subst ch. simpl. set_solver.
    + rewrite lookup_empty. simpl. set_solver.
Defined.
